(** * Corsair Commander Pro driver: frame encoding and transport discipline

    A shallow embedding of [liquidctl/driver/commander_pro.py].  Python
    integers are [Z], a [bytearray] is a [list Z] of byte values updated by
    index, the HID transport is a log of the calls made on it together with
    the reports the device hands back, and an exception is a result of the
    computation next to the state reached when it was raised. *)

From Stdlib Require Import ZArith String DecimalString Floats Lia.
From stdpp Require Import base decidable list strings.

Open Scope Z_scope.
Open Scope string_scope.
Open Scope list_scope.

(** ** Constants *)

Definition _WRITE_LENGTH : nat := 64.
Definition _READ_LENGTH : nat := 16.

(** ** Command catalogue: the enumerations and their wire values *)

Module _Command.
Inductive t :=
| READ_STATUS | GET_FIRMWARE_VERSION | GET_SOFTWARE_ID | WRITE_DEVICE_ID
| START_FIRMWARE_UPDATE | GET_BOOTLOADER_VERSION | WRITE_TEST_FLAG
| GET_THERMOMETER_CONFIG | GET_TEMPERATURE | GET_VOLTAGE
| GET_FAN_CONFIG | GET_FAN_SPEED | GET_FAN_SPEED_PWM
| SET_FAN_SPEED_PERCENT | SET_FAN_SPEED_RPM | SET_FAN_SPEED_GRAPH
| SET_FAN_TEMP_INFO | SET_FAN_FORCE | SET_FAN_MODE | GET_FAN_MODE
| GET_LED_STRIP_MASK | SET_LED_VALUE | SET_LED_COLOUR_VALUES
| SET_LED_TRIGGER | SET_LED_CLEAR | SET_LED_MODE | SET_LED_TEMP_INFO
| SET_LED_GROUP_CLEAR | SET_LED_GROUP_MODE | SET_LED_BRIGHTNESS
| GET_LED_COUNT | SET_LED_PORT_TYPE.

Definition value (c : t) : Z :=
  match c with
  | READ_STATUS => 0x01
  | GET_FIRMWARE_VERSION => 0x02
  | GET_SOFTWARE_ID => 0x03
  | WRITE_DEVICE_ID => 0x04
  | START_FIRMWARE_UPDATE => 0x05
  | GET_BOOTLOADER_VERSION => 0x06
  | WRITE_TEST_FLAG => 0x07
  | GET_THERMOMETER_CONFIG => 0x10
  | GET_TEMPERATURE => 0x11
  | GET_VOLTAGE => 0x12
  | GET_FAN_CONFIG => 0x20
  | GET_FAN_SPEED => 0x21
  | GET_FAN_SPEED_PWM => 0x22
  | SET_FAN_SPEED_PERCENT => 0x23
  | SET_FAN_SPEED_RPM => 0x24
  | SET_FAN_SPEED_GRAPH => 0x25
  | SET_FAN_TEMP_INFO => 0x26
  | SET_FAN_FORCE => 0x27
  | SET_FAN_MODE => 0x28
  | GET_FAN_MODE => 0x29
  | GET_LED_STRIP_MASK => 0x30
  | SET_LED_VALUE => 0x31
  | SET_LED_COLOUR_VALUES => 0x32
  | SET_LED_TRIGGER => 0x33
  | SET_LED_CLEAR => 0x34
  | SET_LED_MODE => 0x35
  | SET_LED_TEMP_INFO => 0x36
  | SET_LED_GROUP_CLEAR => 0x37
  | SET_LED_GROUP_MODE => 0x38
  | SET_LED_BRIGHTNESS => 0x39
  | GET_LED_COUNT => 0x3a
  | SET_LED_PORT_TYPE => 0x3B
  end.
End _Command.

Module _Channel.
Inductive t := CHANNEL_1 | CHANNEL_2.

Definition value (c : t) : Z :=
  match c with CHANNEL_1 => 0x00 | CHANNEL_2 => 0x01 end.

(** [_Channel[name]]: lookup of a member by its name. *)
Definition of_name (name : string) : option t :=
  if String.eqb name "CHANNEL_1" then Some CHANNEL_1
  else if String.eqb name "CHANNEL_2" then Some CHANNEL_2
  else None.
End _Channel.

Module _FanID.
Inductive t := FAN_1 | FAN_2 | FAN_3 | FAN_4 | FAN_5 | FAN_6.

Definition value (f : t) : Z :=
  match f with
  | FAN_1 => 0x00
  | FAN_2 => 0x0C
  | FAN_3 => 0x18
  | FAN_4 => 0x24
  | FAN_5 => 0x30
  | FAN_6 => 0x3C
  end.
End _FanID.

Module _LedType.
Inductive t := STRIP | HD_FAN | SP_FAN | M1_FAN.

Definition value (l : t) : Z :=
  match l with
  | STRIP => 0x0A
  | HD_FAN => 0x0C
  | SP_FAN => 0x01
  | M1_FAN => 0x04
  end.
End _LedType.

Module _Effect.
Inductive t :=
| RAINBOW_WAVE | COLOUR_SHIFT | COLOUR_PULSE | COLOUR_WAVE | STATIC
| TEMPERATURE | VISOR | MARQUEE | BLINK | SEQUENTIAL | RAINBOW.

Definition value (e : t) : Z :=
  match e with
  | RAINBOW_WAVE => 0x00
  | COLOUR_SHIFT => 0x01
  | COLOUR_PULSE => 0x02
  | COLOUR_WAVE => 0x03
  | STATIC => 0x04
  | TEMPERATURE => 0x05
  | VISOR => 0x06
  | MARQUEE => 0x07
  | BLINK => 0x08
  | SEQUENTIAL => 0x09
  | RAINBOW => 0x0A
  end.

Definition members : list (string * t) :=
  [("RAINBOW_WAVE", RAINBOW_WAVE); ("COLOUR_SHIFT", COLOUR_SHIFT);
   ("COLOUR_PULSE", COLOUR_PULSE); ("COLOUR_WAVE", COLOUR_WAVE);
   ("STATIC", STATIC); ("TEMPERATURE", TEMPERATURE); ("VISOR", VISOR);
   ("MARQUEE", MARQUEE); ("BLINK", BLINK); ("SEQUENTIAL", SEQUENTIAL);
   ("RAINBOW", RAINBOW)].

(** [_Effect[name]]: lookup of a member by its name. *)
Definition of_name (name : string) : option t :=
  snd <$> List.find (fun m => String.eqb name (fst m)) members.
End _Effect.

Module _Speed.
Inductive t := HIGH | MEDIUM | SLOW.

Definition value (s : t) : Z :=
  match s with HIGH => 0x00 | MEDIUM => 0x01 | SLOW => 0x02 end.
End _Speed.

Module _Direction.
Inductive t := BACKWARD | FORWARD.

Definition value (d : t) : Z :=
  match d with BACKWARD => 0x00 | FORWARD => 0x01 end.
End _Direction.

Module _ColourMode.
Inductive t := ALTERNATING | RANDOM.

Definition value (m : t) : Z :=
  match m with ALTERNATING => 0x00 | RANDOM => 0x01 end.

Definition eqb (a b : t) : bool :=
  match a, b with
  | ALTERNATING, ALTERNATING | RANDOM, RANDOM => true
  | _, _ => false
  end.
End _ColourMode.

Module _Brightness.
Inductive t := MAX | MEDIUM | LOW | ZERO.

Definition value (b : t) : Z :=
  match b with
  | MAX => 0x64
  | MEDIUM => 0x42
  | LOW => 0x21
  | ZERO => 0x00
  end.
End _Brightness.

(** ** Exceptions, the transport and the driver monad *)

Inductive exn :=
| ValueError (msg : string)
| NameError (name : string)
| OverflowError (msg : string)
| IndexError (msg : string)
| KeyError (key : string)
| TypeError (msg : string).

Inductive outcome (A : Type) :=
| Ok (a : A)
| Raise (e : exn).
Arguments Ok {A} a.
Arguments Raise {A} e.

(** A call on the transport object ([self.device]). *)
Inductive event :=
| ClearEnqueuedReports
| Write (data : list Z)
| Read (length : nat).

(** What the driver's code can touch: the calls made on the transport so far
    (a log, newest first), the device behind it (the report it has ready
    after a given log of calls), the warnings handed to [LOGGER] (newest
    first), and the number of [bytearray] objects created so far. *)
Record world := World {
  calls : list event;
  respond : list event -> list Z;
  logged : list string;
  buffers : nat
}.

Definition M (A : Type) : Type := world -> outcome A * world.

#[global] Instance M_ret : MRet M := fun A a w => (Ok a, w).

#[global] Instance M_bind : MBind M := fun A B f m w =>
  match m w with
  | (Ok a, w') => f a w'
  | (Raise e, w') => (Raise e, w')
  end.

Definition raise {A : Type} (e : exn) : M A := fun w => (Raise e, w).

Definition call (e : event) (w : world) : world :=
  World (e :: calls w) (respond w) (logged w) (buffers w).

(** [device.clear_enqueued_reports()] *)
Definition clear_enqueued_reports : M unit :=
  fun w => (Ok tt, call ClearEnqueuedReports w).

(** [device.write(data)]: the bytes of the buffer as they are at the call. *)
Definition write (data : list Z) : M unit :=
  fun w => (Ok tt, call (Write data) w).

(** [device.read(length)]: at most [length] bytes of the report the device has
    ready after the calls made so far. *)
Definition read (length : nat) : M (list Z) :=
  fun w => (Ok (take length (respond w (calls w))), call (Read length) w).

(** [LOGGER.warning(msg)] *)
Definition warning (msg : string) : M unit :=
  fun w => (Ok tt, World (calls w) (respond w) (msg :: logged w) (buffers w)).

(** ** Python built-ins the driver uses *)

(** [a > b] on lengths, decided as [b < a]. *)
#[global] Instance nat_gt_dec : RelDecision gt := fun a b => decide (b < a)%nat.

(** [bytearray(n)]: a fresh buffer of [n] zero bytes. *)
Definition bytearray (n : nat) : M (list Z) :=
  fun w => (Ok (replicate n 0),
            World (calls w) (respond w) (logged w) (S (buffers w))).

(** [buf[i] = v] on a bytearray. *)
Definition setitem (buf : list Z) (i : nat) (v : Z) : M (list Z) :=
  if bool_decide (0 <= v < 256) then
    if bool_decide (i < List.length buf)%nat then mret (<[i:=v]> buf)
    else raise (IndexError "bytearray index out of range")
  else raise (ValueError "byte must be in range(0, 256)").

(** [l[i]] on a list or a bytes object. *)
Definition getitem {A : Type} (l : list A) (i : nat) : M A :=
  match l !! i with
  | Some v => mret v
  | None => raise (IndexError "index out of range")
  end.

(** [E[name]] on an enumeration [E], given the member of that name if any. *)
Definition member {A : Type} (found : option A) (name : string) : M A :=
  match found with
  | Some a => mret a
  | None => raise (KeyError name)
  end.

(** [int.to_bytes(x, length = 2, byteorder = 'big')] *)
Definition to_bytes (x : Z) : M (list Z) :=
  if bool_decide (x < 0) then
    raise (OverflowError "can't convert negative int to unsigned")
  else if bool_decide (65535 < x) then
    raise (OverflowError "int too big to convert")
  else mret [x / 256; x mod 256].

(** [int.from_bytes(bs, byteorder = 'big')] *)
Definition from_bytes (bs : list Z) : Z :=
  fold_left (fun acc b => acc * 256 + b) bs 0.

(** [l[a:b]] for [0 <= a <= b]; a slice never raises. *)
Definition slice (l : list Z) (a b : nat) : list Z :=
  take (b - a) (drop a l).

(** ['%d' % z] *)
Definition fmt_d (z : Z) : string := NilZero.string_of_int (Z.to_int z).

(** [float(z)] for an int [0 <= z < 2^53], which a double holds exactly. *)
Definition float_of_int (z : Z) : float :=
  PrimFloat.of_uint63 (Uint63.of_Z z).

(** [a / b] on two non-negative ints below 2^53: both convert to a double
    without loss and the quotient is rounded once. *)
Definition truediv (a b : Z) : float :=
  PrimFloat.div (float_of_int a) (float_of_int b).

(** The value of a status property: a string, an int or a float. *)
Inductive pyval :=
| PyStr (s : string)
| PyInt (z : Z)
| PyFloat (f : float).

(** ** LED configuration objects *)

Module FanConfig.
(** Fan configuration: one LED group of a channel.  A colour is a Python
    sequence of ints, indexed [0], [1], [2] for red, green, blue. *)
Record t := Build {
  fan : _FanID.t;
  effect : _Effect.t;
  speed : _Speed.t;
  direction : _Direction.t;
  colourMode : _ColourMode.t;
  colour1 : list Z;
  colour2 : list Z;
  colour3 : list Z
}.
End FanConfig.

Module LedConfig.
(** LED configuration of a channel. *)
Record t := Build {
  channel : _Channel.t;
  ledType : _LedType.t;
  brightness : _Brightness.t;
  fanConfigs : list FanConfig.t
}.

(** The body of [for fanConfig in self.fanConfigs], on the one buffer [buf]
    that every iteration updates and writes. *)
Fixpoint apply_fanConfigs (buf : list Z) (configs : list FanConfig.t)
  : M (list Z) :=
  match configs with
  | [] => mret buf
  | fanConfig :: rest =>
      buf ← setitem buf 2 (_FanID.value (FanConfig.fan fanConfig));
      buf ← setitem buf 4 (_Effect.value (FanConfig.effect fanConfig));
      buf ← setitem buf 5 (_Speed.value (FanConfig.speed fanConfig));
      buf ← setitem buf 6 (_Direction.value (FanConfig.direction fanConfig));
      buf ← setitem buf 7 (_ColourMode.value (FanConfig.colourMode fanConfig));
      buf ← (if negb (_ColourMode.eqb (FanConfig.colourMode fanConfig)
                                      _ColourMode.RANDOM)
             then
               c ← getitem (FanConfig.colour1 fanConfig) 0;
               buf ← setitem buf 9 c;
               c ← getitem (FanConfig.colour1 fanConfig) 1;
               buf ← setitem buf 10 c;
               c ← getitem (FanConfig.colour1 fanConfig) 2;
               buf ← setitem buf 11 c;
               c ← getitem (FanConfig.colour2 fanConfig) 0;
               buf ← setitem buf 12 c;
               c ← getitem (FanConfig.colour2 fanConfig) 1;
               buf ← setitem buf 13 c;
               c ← getitem (FanConfig.colour2 fanConfig) 2;
               buf ← setitem buf 14 c;
               c ← getitem (FanConfig.colour3 fanConfig) 0;
               buf ← setitem buf 15 c;
               c ← getitem (FanConfig.colour3 fanConfig) 1;
               buf ← setitem buf 16 c;
               c ← getitem (FanConfig.colour3 fanConfig) 2;
               setitem buf 17 c
             else mret buf);
      write buf;;
      read _READ_LENGTH;;
      apply_fanConfigs buf rest
  end.

(** Apply this configuration to a device. *)
Definition apply (self : t) : M unit :=
  init1 ← bytearray _WRITE_LENGTH;
  init1 ← setitem init1 0 (_Command.value _Command.SET_LED_GROUP_CLEAR);

  init2 ← bytearray _WRITE_LENGTH;
  init2 ← setitem init2 0 (_Command.value _Command.SET_LED_CLEAR);

  init3 ← bytearray _WRITE_LENGTH;
  init3 ← setitem init3 0 (_Command.value _Command.SET_LED_BRIGHTNESS);
  init3 ← setitem init3 1 0x00;
  init3 ← setitem init3 2 (_Brightness.value (brightness self));

  init4 ← bytearray _WRITE_LENGTH;
  init4 ← setitem init4 0 (_Command.value _Command.SET_LED_GROUP_MODE);
  init4 ← setitem init4 1 0x00;
  init4 ← setitem init4 2 0x01;

  final ← bytearray _WRITE_LENGTH;
  final ← setitem final 0 (_Command.value _Command.SET_LED_TRIGGER);
  final ← setitem final 2 0xff;

  clear_enqueued_reports;;

  write init1;;
  read _READ_LENGTH;;

  write init2;;
  read _READ_LENGTH;;

  write init3;;
  read _READ_LENGTH;;

  write init4;;
  read _READ_LENGTH;;

  buf ← bytearray _WRITE_LENGTH;
  buf ← setitem buf 0 (_Command.value _Command.SET_LED_MODE);
  buf ← setitem buf 1 (_Channel.value (channel self));
  buf ← setitem buf 3 (_LedType.value (ledType self));
  buf ← setitem buf 8 0xff;

  apply_fanConfigs buf (fanConfigs self);;

  write final;;
  read _READ_LENGTH;;
  mret tt.
End LedConfig.

(** ** The driver *)

Module CommanderPro.

(** The names bound at module level; a name that is neither a local of the
    running function nor one of these (nor a built-in) cannot be loaded. *)
Definition module_globals : list string :=
  ["itertools"; "logging"; "re"; "Enum"; "unique"; "UsbHidDriver";
   "RuntimeStorage"; "compute_pec"; "clamp"; "fraction_of_byte";
   "u16le_from"; "normalize_profile"; "_WRITE_LENGTH"; "_READ_LENGTH";
   "LOGGER"; "_Command"; "_Channel"; "_FanID"; "_LedType"; "_Effect";
   "_Speed"; "_Direction"; "_ColourMode"; "_Brightness"; "LedConfig";
   "FanConfig"; "CommanderPro"].

(** The value of a name used as a byte inside a function whose int-valued
    locals are [locals]: a module-level name resolves to one of the objects
    above, none of which is an int, and any other name is undefined. *)
Definition load_name (locals : list (string * Z)) (name : string) : M Z :=
  match List.find (fun b => String.eqb name (fst b)) locals with
  | Some b => mret (snd b)
  | None =>
      if existsb (String.eqb name) module_globals
      then raise (TypeError "object cannot be interpreted as an integer")
      else raise (NameError name)
  end.

(** *** LED control *)

(** Set the colour mode for a specific channel. *)
Definition set_color (channel mode : string) (colors : list (list Z))
  : M unit :=
  effect ← member (_Effect.of_name mode) mode;
  channel_ ← member (_Channel.of_name channel) channel;
  let colours := colors in
  if bool_decide (List.length colours < 1)%nat then
    raise (ValueError "at least 1 colour must be provided")
  else if bool_decide (List.length colours > 3)%nat then
    raise (ValueError "at most 3 colours can be provided")
  else
    (* while len(colours) < 3: colours.append([0, 0, 0]) *)
    let colours :=
      (colours ++ replicate (3 - List.length colours) [0; 0; 0])%list in
    let speed := _Speed.HIGH in
    let fans := [_FanID.FAN_1; _FanID.FAN_2; _FanID.FAN_3;
                 _FanID.FAN_4; _FanID.FAN_5; _FanID.FAN_6] in
    let direction := _Direction.FORWARD in
    let colourMode := _ColourMode.ALTERNATING in
    c0 ← getitem colours 0;
    c1 ← getitem colours 1;
    c2 ← getitem colours 2;
    let configs :=
      map (fun fan =>
             FanConfig.Build fan effect speed direction colourMode c0 c1 c2)
          fans in
    let configuration :=
      LedConfig.Build channel_ _LedType.HD_FAN _Brightness.MAX configs in
    LedConfig.apply configuration.

(** Notify the LEDs of the temperature. *)
Definition notify_led_temperature (channel temperature : Z) : M unit :=
  if bool_decide (channel < 0 \/ channel > 1) then
    raise (ValueError "channel must be 0 or 1")
  else if bool_decide (temperature < 0 \/ temperature > 65535) then
    raise (ValueError "temperature must be in range [0..65535]")
  else
    buf ← bytearray _WRITE_LENGTH;
    buf ← setitem buf 0 (_Command.value _Command.SET_LED_TEMP_INFO);
    buf ← setitem buf 1 channel;
    temperature_bytes ← to_bytes temperature;
    b ← getitem temperature_bytes 0;
    buf ← setitem buf 3 b;
    b ← getitem temperature_bytes 1;
    buf ← setitem buf 4 b;

    write buf;;
    resp ← read _READ_LENGTH;
    mret tt.

Definition get_port_led_count : M unit :=
  buf ← bytearray _WRITE_LENGTH;
  buf ← setitem buf 0 (_Command.value _Command.GET_LED_COUNT);

  clear_enqueued_reports;;
  write buf;;
  resp ← read _READ_LENGTH;
  mret tt.

(** *** Fan control *)

(** Set channel to a fixed speed duty. *)
Definition set_speed_percent (channel duty : Z) : M unit :=
  if bool_decide (channel < 0 \/ channel > 5) then
    raise (ValueError "Channel must be in range [0, 5]")
  else if bool_decide (duty > 100 \/ duty < 0) then
    raise (ValueError
             "Fan speed greater than 100%% or less than 0%% is impossible")
  else
    buf ← bytearray _WRITE_LENGTH;
    buf ← setitem buf 0 (_Command.value _Command.SET_FAN_SPEED_PERCENT);
    buf ← setitem buf 1 channel;
    buf ← setitem buf 2 duty;

    clear_enqueued_reports;;
    write buf;;
    resp ← read _READ_LENGTH;
    mret tt.

(** Set channel to a fixed speed duty; [int(channel)] and [int(duty)] are
    the identity on the ints taken here. *)
Definition set_fixed_speed (channel duty : Z) : M unit :=
  let channel_index := channel in
  let speed := duty in
  set_speed_percent channel_index speed.

(** Set speed for a fan to a fixed RPM value.  The function's locals are
    [fan], [speed] and, once assigned, [buf]. *)
Definition set_speed_rpm (fan speed : Z) : M unit :=
  if bool_decide (fan < 0 \/ fan > 5) then
    raise (ValueError "fan must be in range [0, 5]")
  else if bool_decide (speed < 0) then
    raise (ValueError "Negative speed not allowed")
  else
    (if bool_decide (speed > 2500)
     then warning "speed greater than 2500 may be bad idea"
     else mret tt);;
    if bool_decide (speed > 65535) then
      raise (ValueError "speed must be < 65535")
    else
      buf ← bytearray _WRITE_LENGTH;
      buf ← setitem buf 0 (_Command.value _Command.SET_FAN_SPEED_RPM);
      channel_index ← load_name [("fan", fan); ("speed", speed)]
                                "channel_index";
      buf ← setitem buf 1 channel_index;
      speed_bytes ← to_bytes speed;
      b ← getitem speed_bytes 0;
      buf ← setitem buf 2 b;
      b ← getitem speed_bytes 1;
      buf ← setitem buf 3 b;

      clear_enqueued_reports;;
      write buf;;
      resp ← read _READ_LENGTH;
      mret tt.

(** The body of [for i in range(0, 6)] of [set_speed_graph]. *)
Fixpoint set_speed_graph_fill (buf temps speeds : list Z) (range : list nat)
  : M (list Z) :=
  match range with
  | [] => mret buf
  | i :: range =>
      t ← getitem temps i;
      temp_bytes ← to_bytes (t * 100);
      s ← getitem speeds i;
      speed_bytes ← to_bytes s;

      b ← getitem temp_bytes 0;
      buf ← setitem buf (3 + 2 * i) b;
      b ← getitem temp_bytes 1;
      buf ← setitem buf (4 + 2 * i) b;
      b ← getitem speed_bytes 0;
      buf ← setitem buf (15 + 2 * i) b;
      b ← getitem speed_bytes 1;
      buf ← setitem buf (16 + 2 * i) b;
      set_speed_graph_fill buf temps speeds range
  end.

(** This sets the fan mode to 'graph' configuration. *)
Definition set_speed_graph (thermometer fan : Z) (temps speeds : list Z)
  : M unit :=
  if bool_decide (fan < 0 \/ fan > 6) then
    raise (ValueError "fan number should be in range [0, 5]")
  else if bool_decide (thermometer < 0 \/ thermometer > 3) then
    raise (ValueError "thermometer should be in range [0, 3]")
  else if bool_decide (List.length temps ≠ 6%nat) then
    raise (ValueError ("Need to provide 6 temperatures, only "
                         +:+ fmt_d (Z.of_nat (List.length temps))
                         +:+ " were given"))
  else if bool_decide (List.length speeds ≠ 6%nat) then
    raise (ValueError ("Need to provide 6 speeds, only "
                         +:+ fmt_d (Z.of_nat (List.length speeds))
                         +:+ " were given"))
  else
    buf ← bytearray _WRITE_LENGTH;
    buf ← setitem buf 0 (_Command.value _Command.SET_FAN_SPEED_GRAPH);
    buf ← setitem buf 1 fan;
    buf ← setitem buf 2 thermometer;

    buf ← set_speed_graph_fill buf temps speeds (seq 0 6);

    clear_enqueued_reports;;
    write buf;;
    resp ← read _READ_LENGTH;
    mret tt.

(** Set channel to follow a speed duty profile; [int(channel)] is the
    identity on the int taken here. *)
Definition set_speed_profile (channel : Z) (profile : list (Z * Z))
  : M unit :=
  let fan_number := channel in
  let temperatures := map fst profile in
  let speeds := map (fun p => snd p * 25) profile in
  (* the two [while len(...) < 6: ....append(final_...)] loops *)
  let temperatures :=
    match last temperatures with
    | Some final_temp =>
        (temperatures
           ++ replicate (6 - List.length temperatures) final_temp)%list
    | None => temperatures
    end in
  let speeds :=
    match last speeds with
    | Some final_speed =>
        (speeds ++ replicate (6 - List.length speeds) final_speed)%list
    | None => speeds
    end in
  set_speed_graph 0 fan_number temperatures speeds.

Fixpoint for_each {A : Type} (l : list A) (body : A -> M unit) : M unit :=
  match l with
  | [] => mret tt
  | a :: l => body a;; for_each l body
  end.

Definition set_speed_graph_example : M unit :=
  let temps := [20; 30; 40; 60; 80; 100] in
  let speeds := [800; 1000; 1250; 1500; 2000; 2500] in
  for_each [0; 1; 2; 3; 4; 5] (fun fan => set_speed_graph 0 fan temps speeds).

(** Send temperature info to the device. *)
Definition send_temperature_info (sensor_index temperature : Z) : M unit :=
  if bool_decide (sensor_index > 255 \/ sensor_index < 0) then
    raise (ValueError
             "sensor_index must be in range [0, 255] (probably less)")
  else
    buf ← bytearray _WRITE_LENGTH;
    buf ← setitem buf 0 (_Command.value _Command.SET_FAN_TEMP_INFO);
    buf ← setitem buf 1 sensor_index;
    temp_bytes ← to_bytes (temperature * 100);
    b ← getitem temp_bytes 0;
    buf ← setitem buf 2 b;
    b ← getitem temp_bytes 1;
    buf ← setitem buf 3 b;

    write buf;;
    resp ← read _READ_LENGTH;
    mret tt.

(** Sets the mode/configuration of the fan. *)
Definition set_fan_mode (fan mode : Z) : M unit :=
  if bool_decide (fan < 0 \/ fan > 5) then
    raise (ValueError "fan must be in range [0..5]")
  else if bool_decide (mode < 0 \/ mode > 2) then
    raise (ValueError "mode must be in range [0..2]")
  else
    buf ← bytearray _WRITE_LENGTH;
    buf ← setitem buf 0 (_Command.value _Command.SET_FAN_MODE);
    buf ← setitem buf 1 0x02;
    buf ← setitem buf 2 fan;
    buf ← setitem buf 3 mode;

    write buf;;
    resp ← read _READ_LENGTH;
    mret tt.

(** *** Low level version info *)

Definition get_firmware_version : M string :=
  buf ← bytearray _WRITE_LENGTH;
  buf ← setitem buf 0 (_Command.value _Command.GET_FIRMWARE_VERSION);

  clear_enqueued_reports;;
  write buf;;
  resp ← read _READ_LENGTH;

  x ← getitem resp 1;
  y ← getitem resp 2;
  z ← getitem resp 3;
  mret (fmt_d x +:+ "." +:+ fmt_d y +:+ "." +:+ fmt_d z).

Definition get_software_id : M string :=
  buf ← bytearray _WRITE_LENGTH;
  buf ← setitem buf 0 (_Command.value _Command.GET_SOFTWARE_ID);

  clear_enqueued_reports;;
  write buf;;
  resp ← read _READ_LENGTH;

  a ← getitem resp 1;
  b ← getitem resp 2;
  c ← getitem resp 3;
  d ← getitem resp 4;
  mret (fmt_d a +:+ "." +:+ fmt_d b +:+ "." +:+ fmt_d c +:+ "." +:+ fmt_d d).

Definition get_bootloader_version : M string :=
  buf ← bytearray _WRITE_LENGTH;
  buf ← setitem buf 0 (_Command.value _Command.GET_BOOTLOADER_VERSION);

  clear_enqueued_reports;;
  write buf;;
  resp ← read _READ_LENGTH;

  x ← getitem resp 1;
  y ← getitem resp 2;
  mret (fmt_d x +:+ "." +:+ fmt_d y).

(** *** Status *)

(** A [(property, value, unit)] tuple. *)
Definition property : Type := string * pyval * string.

(** Get the speed (in RPM) of a fan at a given index. *)
Definition get_fan_speed_rpm (fanIndex : Z) : M Z :=
  buf ← bytearray _WRITE_LENGTH;
  buf ← setitem buf 0 (_Command.value _Command.GET_FAN_SPEED);
  buf ← setitem buf 1 fanIndex;

  clear_enqueued_reports;;
  write buf;;
  resp ← read _READ_LENGTH;

  mret (from_bytes (slice resp 1 3)).

(** Get the speed (in %) of a fan at a given index. *)
Definition get_fan_speed_pwm (fanIndex : Z) : M Z :=
  buf ← bytearray _WRITE_LENGTH;
  buf ← setitem buf 0 (_Command.value _Command.GET_FAN_SPEED_PWM);
  buf ← setitem buf 1 fanIndex;

  clear_enqueued_reports;;
  write buf;;
  resp ← read _READ_LENGTH;

  getitem resp 1.

(** The body of [for i in range(1, 7)] of [get_fan_status]; [resp[i]] is
    read once, every later read of it gives the same byte. *)
Fixpoint get_fan_status_loop (resp : list Z) (range : list nat)
    (properties : list property) : M (list property) :=
  match range with
  | [] => mret properties
  | i :: range =>
      let propertyName := "Fan " +:+ fmt_d (Z.of_nat i) in
      r ← getitem resp i;
      let status :=
        if bool_decide (r = 0x00) then "disconnected"
        else if bool_decide (r = 0x01) then "connected (3 pins)"
        else if bool_decide (r = 0x02) then "connected (4 pins)"
        else "unknown" in
      let properties :=
        (properties ++ [(propertyName +:+ " status", PyStr status, "")])%list in
      properties ← (if bool_decide (r = 0x01 \/ r = 0x02) then
                      speed ← get_fan_speed_rpm (Z.of_nat i - 1);
                      mret (properties
                              ++ [(propertyName +:+ " speed", PyInt speed,
                                   "rpm")])%list
                    else mret properties);
      get_fan_status_loop resp range properties
  end.

(** Get the status of the connected fans. *)
Definition get_fan_status : M (list property) :=
  buf ← bytearray _WRITE_LENGTH;
  buf ← setitem buf 0 (_Command.value _Command.GET_FAN_CONFIG);

  clear_enqueued_reports;;
  write buf;;
  resp ← read _READ_LENGTH;

  get_fan_status_loop resp (seq 1 6) [].

(** Get the temperature of the specified thermometer in °C. *)
Definition get_temperature (index : Z) : M float :=
  if bool_decide (index < 0 \/ index > 3) then
    raise (ValueError "Thermometer index must be in range [0, 3]")
  else
    buf ← bytearray _WRITE_LENGTH;
    buf ← setitem buf 0 (_Command.value _Command.GET_TEMPERATURE);
    buf ← setitem buf 1 index;

    clear_enqueued_reports;;
    write buf;;
    resp ← read _READ_LENGTH;

    mret (truediv (from_bytes (slice resp 1 3)) 100).

(** The body of [for i in range(1, 5)] of [get_thermometer_status]. *)
Fixpoint get_thermometer_status_loop (resp : list Z) (range : list nat)
    (config : list property) : M (list property) :=
  match range with
  | [] => mret config
  | i :: range =>
      let propertyName := "Thermometer " +:+ fmt_d (Z.of_nat i) in
      r ← getitem resp i;
      let status :=
        if bool_decide (r = 0x00) then "disconnected"
        else if bool_decide (r = 0x01) then "connected"
        else "unknown" in
      let config :=
        (config ++ [(propertyName +:+ " status", PyStr status, "")])%list in
      config ← (if bool_decide (r = 0x01) then
                  temp ← get_temperature (Z.of_nat i - 1);
                  mret (config
                          ++ [(propertyName +:+ " temperature", PyFloat temp,
                               "°C")])%list
                else mret config);
      get_thermometer_status_loop resp range config
  end.

(** Gets the status of the thermometers. *)
Definition get_thermometer_status : M (list property) :=
  buf ← bytearray _WRITE_LENGTH;
  buf ← setitem buf 0 (_Command.value _Command.GET_THERMOMETER_CONFIG);

  clear_enqueued_reports;;
  write buf;;
  resp ← read _READ_LENGTH;

  get_thermometer_status_loop resp (seq 1 4) [].

(** This is some sort of status report for LEDs. *)
Definition get_led_status (channel : Z) : M unit :=
  buf ← bytearray _WRITE_LENGTH;
  buf ← setitem buf 0 (_Command.value _Command.GET_LED_STRIP_MASK);
  buf ← setitem buf 1 channel;

  clear_enqueued_reports;;
  write buf;;
  resp ← read _READ_LENGTH;
  mret tt.

(** Get the voltage for the specified sensor/rail in volts. *)
Definition get_voltage (sensor_index : Z) : M float :=
  if bool_decide (sensor_index < 0 \/ sensor_index > 2) then
    raise (ValueError "sensor_index must be in range [0, 2]")
  else
    buf ← bytearray _WRITE_LENGTH;
    buf ← setitem buf 0 (_Command.value _Command.GET_VOLTAGE);
    buf ← setitem buf 1 sensor_index;

    clear_enqueued_reports;;
    write buf;;
    resp ← read _READ_LENGTH;

    mret (truediv (from_bytes (slice resp 1 3)) 1000).

(** Get the current voltage on the various rails. *)
Definition get_power_status : M (list property) :=
  v ← get_voltage 0;
  let properties := [("12V  rail", PyFloat v, "V")] in
  v ← get_voltage 1;
  let properties := (properties ++ [("5V   rail", PyFloat v, "V")])%list in
  v ← get_voltage 2;
  let properties := (properties ++ [("3.3V rail", PyFloat v, "V")])%list in
  mret properties.

(** Get a status report. *)
Definition get_status : M (list property) :=
  get_led_status (_Channel.value _Channel.CHANNEL_1);;
  get_led_status (_Channel.value _Channel.CHANNEL_2);;

  properties ← get_fan_status;
  more ← get_thermometer_status;
  let properties := (properties ++ more)%list in
  more ← get_power_status;
  let properties := (properties ++ more)%list in
  mret properties.

End CommanderPro.

Import CommanderPro.

(** ** Running the driver on a concrete device *)

(** A device that answers every read with the same report. *)
Definition steady (report : list Z) : world :=
  World [] (fun _ => report) [] 0.

(** A device whose reports are all zero. *)
Definition idle : world := steady (replicate 16 0).

(** A request and the read of its response. *)
Definition exchange (frame : list Z) : list event :=
  [Write frame; Read _READ_LENGTH].

(** The world after the further transport calls [cs] and warnings [msgs]
    (both oldest first) and [n] more buffers. *)
Definition after (cs : list event) (msgs : list string) (n : nat)
    (w : world) : world :=
  World (rev cs ++ calls w) (respond w) (rev msgs ++ logged w) (n + buffers w).

(** A 16-bit value as a big-endian byte pair. *)
Definition big_endian_pair (x : Z) : list Z := [x / 256; x mod 256].

(** A frame given by its leading bytes, zero-filled to the write length. *)
Definition padded (bytes : list Z) : list Z :=
  bytes ++ replicate (_WRITE_LENGTH - List.length bytes) 0.

(** ** Inputs used below *)

(** The curve of [set_speed_graph_example]. *)
Definition example_temps : list Z := [20; 30; 40; 60; 80; 100].
Definition example_speeds : list Z := [800; 1000; 1250; 1500; 2000; 2500].

(** Two LED groups on channel 1: the first with alternating colours red,
    green, blue; the second in random colour mode. *)
Definition alternating_then_random : LedConfig.t :=
  LedConfig.Build _Channel.CHANNEL_1 _LedType.HD_FAN _Brightness.MAX
    [FanConfig.Build _FanID.FAN_1 _Effect.STATIC _Speed.HIGH
       _Direction.FORWARD _ColourMode.ALTERNATING
       [255; 0; 0] [0; 255; 0] [0; 0; 255];
     FanConfig.Build _FanID.FAN_2 _Effect.STATIC _Speed.HIGH
       _Direction.FORWARD _ColourMode.RANDOM
       [0; 0; 0] [0; 0; 0] [0; 0; 0]].

(** ** Vocabulary of the statements *)

(** The stale-data guard over the calls one operation makes: no frame is
    written before the enqueued reports have been cleared. *)
Fixpoint guarded (cs : list event) : bool :=
  match cs with
  | [] => true
  | ClearEnqueuedReports :: _ => true
  | Write _ :: _ => false
  | Read _ :: cs => guarded cs
  end.

(** The result [r] of an operation started in [w] is a rejection: a
    ValueError raised with no call made on the transport and no buffer
    created. *)
Definition rejected {A : Type} (r : outcome A * world) (w : world) : Prop :=
  exists msg w',
    r = (Raise (ValueError msg), w')
    /\ calls w' = calls w /\ buffers w' = buffers w.

(** [m] makes no call on the transport. *)
Definition quiet {A : Type} (m : M A) : Prop :=
  forall w, calls (snd (m w)) = calls w.

(** Whenever [m] raises, it has made no call on the transport. *)
Definition cautious {A : Type} (m : M A) : Prop :=
  forall w e w', m w = (Raise e, w') -> calls w' = calls w.

(** A colour the loop of [LedConfig.apply] can copy into its buffer: a
    sequence whose first three components exist and are bytes. *)
Definition rgb (colour : list Z) : bool :=
  match colour with
  | r :: g :: b :: _ =>
      bool_decide (0 <= r < 256) && bool_decide (0 <= g < 256)
      && bool_decide (0 <= b < 256)
  | _ => false
  end.

(** A group config whose colours, when its mode has them copied, are RGB
    triples. *)
Definition colours_ok (fanConfig : FanConfig.t) : bool :=
  _ColourMode.eqb (FanConfig.colourMode fanConfig) _ColourMode.RANDOM
  || (rgb (FanConfig.colour1 fanConfig) && rgb (FanConfig.colour2 fanConfig)
      && rgb (FanConfig.colour3 fanConfig)).

(** The shared buffer of [LedConfig.apply] as one iteration of its loop
    leaves it, given the buffer [buf] the iteration starts from. *)
Definition group_frame (buf : list Z) (fanConfig : FanConfig.t) : list Z :=
  let buf := <[2%nat:=_FanID.value (FanConfig.fan fanConfig)]> buf in
  let buf := <[4%nat:=_Effect.value (FanConfig.effect fanConfig)]> buf in
  let buf := <[5%nat:=_Speed.value (FanConfig.speed fanConfig)]> buf in
  let buf := <[6%nat:=_Direction.value (FanConfig.direction fanConfig)]> buf in
  let buf :=
    <[7%nat:=_ColourMode.value (FanConfig.colourMode fanConfig)]> buf in
  if _ColourMode.eqb (FanConfig.colourMode fanConfig) _ColourMode.RANDOM
  then buf
  else
    let buf := <[9%nat:=FanConfig.colour1 fanConfig !!! 0%nat]> buf in
    let buf := <[10%nat:=FanConfig.colour1 fanConfig !!! 1%nat]> buf in
    let buf := <[11%nat:=FanConfig.colour1 fanConfig !!! 2%nat]> buf in
    let buf := <[12%nat:=FanConfig.colour2 fanConfig !!! 0%nat]> buf in
    let buf := <[13%nat:=FanConfig.colour2 fanConfig !!! 1%nat]> buf in
    let buf := <[14%nat:=FanConfig.colour2 fanConfig !!! 2%nat]> buf in
    let buf := <[15%nat:=FanConfig.colour3 fanConfig !!! 0%nat]> buf in
    let buf := <[16%nat:=FanConfig.colour3 fanConfig !!! 1%nat]> buf in
    <[17%nat:=FanConfig.colour3 fanConfig !!! 2%nat]> buf.

(** The successive contents of the shared buffer over the loop. *)
Fixpoint group_frames (buf : list Z) (configs : list FanConfig.t)
  : list (list Z) :=
  match configs with
  | [] => []
  | fanConfig :: rest =>
      group_frame buf fanConfig :: group_frames (group_frame buf fanConfig) rest
  end.

(** The shared buffer as [LedConfig.apply] sets it up before the loop. *)
Definition group_buffer (self : LedConfig.t) : list Z :=
  padded [_Command.value _Command.SET_LED_MODE;
          _Channel.value (LedConfig.channel self); 0;
          _LedType.value (LedConfig.ledType self); 0; 0; 0; 0; 0xff].

(** The four priming frames and the trigger frame of [LedConfig.apply]. *)
Definition priming (self : LedConfig.t) : list (list Z) :=
  [padded [_Command.value _Command.SET_LED_GROUP_CLEAR];
   padded [_Command.value _Command.SET_LED_CLEAR];
   padded [_Command.value _Command.SET_LED_BRIGHTNESS; 0;
           _Brightness.value (LedConfig.brightness self)];
   padded [_Command.value _Command.SET_LED_GROUP_MODE; 0; 1]].

Definition trigger : list Z :=
  padded [_Command.value _Command.SET_LED_TRIGGER; 0; 0xff].

(** ** Status decoding *)

(** The device always has a full report ready. *)
Definition full_reports (w : world) : Prop :=
  forall log, (_READ_LENGTH <= List.length (respond w log))%nat.

(** The label of a fan connector's status byte. *)
Definition fan_label (b : Z) : string :=
  if bool_decide (b = 0) then "disconnected"
  else if bool_decide (b = 1) then "connected (3 pins)"
  else if bool_decide (b = 2) then "connected (4 pins)"
  else "unknown".

(** The properties of fan slot [i] (1 to 6) with status byte [b]: its
    status, and its speed when the byte is 1 or 2. *)
Definition fan_samples (i : nat) (b : Z) (speed : Z) : list property :=
  let name := "Fan " +:+ fmt_d (Z.of_nat i) in
  (name +:+ " status", PyStr (fan_label b), "")
    :: (if bool_decide (b = 1 \/ b = 2)
        then [(name +:+ " speed", PyInt speed, "rpm")]
        else []).

(** The label of a thermometer's status byte. *)
Definition thermometer_label (b : Z) : string :=
  if bool_decide (b = 0) then "disconnected"
  else if bool_decide (b = 1) then "connected"
  else "unknown".

(** The properties of thermometer slot [i] (1 to 4) with status byte [b]:
    its status, and its temperature when the byte is 1. *)
Definition thermometer_samples (i : nat) (b : Z) (temp : float)
  : list property :=
  let name := "Thermometer " +:+ fmt_d (Z.of_nat i) in
  (name +:+ " status", PyStr (thermometer_label b), "")
    :: (if bool_decide (b = 1)
        then [(name +:+ " temperature", PyFloat temp, "°C")]
        else []).

(** A property of the given name is among [properties]. *)
Definition has_property (name : string) (properties : list property) : bool :=
  existsb (fun p => String.eqb (fst (fst p)) name) properties.

(** The rule for one slot as stated for fans and thermometers alike: the
    slot's reading is among the properties exactly when its status byte is
    1 (3-pin connected) or 2 (4-pin connected). *)
Definition reading_iff_connected (report : list Z)
    (properties : list property) (reading : string) (slot : nat) : Prop :=
  forall b,
    report !! slot = Some b ->
    (b = 1 \/ b = 2) <-> has_property reading properties = true.

(** A device whose first thermometer reports status byte 2. *)
Definition thermometer_code_2 : list Z :=
  [0; 2; 0; 0; 0; 0; 0; 0; 0; 0; 0; 0; 0; 0; 0; 0].

(** A report read as fan configuration (fans 1 and 2 on three pins, fan 3 on
    four, fan 4 with the undocumented code 3, fans 5 and 6 disconnected) and
    as thermometer configuration (thermometers 1 and 2 connected, 3 and 4
    with the codes 2 and 3). *)
Definition mixed_report : list Z :=
  [0; 1; 1; 2; 3; 0; 0; 0; 0; 0; 0; 0; 0; 0; 0; 0].

(** The result [r] of an operation started in [w] is an overflow: an
    OverflowError raised after one buffer was created and before any call on
    the transport. *)
Definition overflowed {A : Type} (r : outcome A * world) (w : world) : Prop :=
  exists msg, r = (Raise (OverflowError msg), after [] [] 1 w).

(** The slots of [range] that [report] shows as connected fans (status
    byte 1 or 2). *)
Definition connected_fans (report : list Z) (range : list nat) : list nat :=
  List.filter (fun i => bool_decide (report !!! i = 1 \/ report !!! i = 2))
              range.

(** The slots of [range] that [report] shows as connected thermometers
    (status byte 1). *)
Definition connected_thermometers (report : list Z) (range : list nat)
  : list nat :=
  List.filter (fun i => bool_decide (report !!! i = 1)) range.

(** The calls of one query with a one-byte argument: clear, write, read. *)
Definition query (command : Z) (argument : Z) : list event :=
  ClearEnqueuedReports :: exchange (padded [command; argument]).

(** The nine colour bytes of a group config: the first three components of
    each of its three colours. *)
Definition colour_bytes (fanConfig : FanConfig.t) : list Z :=
  take 3 (FanConfig.colour1 fanConfig)
    ++ take 3 (FanConfig.colour2 fanConfig)
    ++ take 3 (FanConfig.colour3 fanConfig).

(** The colour bytes the successive frames of a sequence of group configs
    carry, when [previous] are the colour bytes in the buffer before it: a
    config in random mode leaves them as they are, any other config puts its
    own. *)
Fixpoint carried (previous : list Z) (configs : list FanConfig.t)
  : list (list Z) :=
  match configs with
  | [] => []
  | fanConfig :: rest =>
      let current :=
        if _ColourMode.eqb (FanConfig.colourMode fanConfig) _ColourMode.RANDOM
        then previous else colour_bytes fanConfig in
      current :: carried current rest
  end.

(** ** Framing *)

(** A buffer fit to be written: 64 bytes. *)
Definition buffer (buf : list Z) : Prop :=
  List.length buf = _WRITE_LENGTH /\ Forall (fun b => 0 <= b < 256) buf.

(** A call that respects the framing of the protocol: a write hands over 64
    bytes, a read asks for 16. *)
Definition framed_call (e : event) : Prop :=
  match e with
  | ClearEnqueuedReports => True
  | Write data => buffer data
  | Read length => length = _READ_LENGTH
  end.

(** Every call made so far respects the framing. *)
Definition framed (w : world) : Prop := Forall framed_call (calls w).

(** Run from a world whose calls are framed, [m] leaves them framed,
    whether it returns or raises, and a value it returns satisfies [Q]. *)
Definition keeps {A : Type} (m : M A) (Q : A -> Prop) : Prop :=
  forall w,
    framed w ->
    framed (snd (m w)) /\ forall a, fst (m w) = Ok a -> Q a.

(* ------------------------------------------------------------------ *)
(** * Properties *)

(** ** Stepping through the driver monad *)

Lemma run_bind {A B : Type} (m : M A) (f : A -> M B) w :
  (m ≫= f) w
  = match m w with
    | (Ok a, w') => f a w'
    | (Raise e, w') => (Raise e, w')
    end.
Proof. reflexivity. Qed.

Lemma run_ret {A : Type} (a : A) w : (mret a : M A) w = (Ok a, w).
Proof. reflexivity. Qed.

Lemma run_raise {A : Type} e w : (raise e : M A) w = (Raise e, w).
Proof. reflexivity. Qed.

Lemma after_nothing w : after [] [] 0 w = w.
Proof. by destruct w. Qed.

Lemma from_start {A : Type} (m : M A) w r :
  m (after [] [] 0 w) = r -> m w = r.
Proof. by rewrite after_nothing. Qed.

Lemma bytearray_after k cs msgs n w :
  bytearray k (after cs msgs n w)
  = (Ok (replicate k 0), after cs msgs (S n) w).
Proof. reflexivity. Qed.

Lemma clear_after cs msgs n w :
  clear_enqueued_reports (after cs msgs n w)
  = (Ok tt, after (cs ++ [ClearEnqueuedReports]) msgs n w).
Proof.
  unfold clear_enqueued_reports, call, after; simpl.
  by rewrite rev_app_distr.
Qed.

Lemma write_after data cs msgs n w :
  write data (after cs msgs n w)
  = (Ok tt, after (cs ++ [Write data]) msgs n w).
Proof. unfold write, call, after; simpl. by rewrite rev_app_distr. Qed.

Lemma read_after k cs msgs n w :
  read k (after cs msgs n w)
  = (Ok (take k (respond w (rev cs ++ calls w))),
     after (cs ++ [Read k]) msgs n w).
Proof. unfold read, call, after; simpl. by rewrite rev_app_distr. Qed.

Lemma warning_after msg cs msgs n w :
  warning msg (after cs msgs n w) = (Ok tt, after cs (msgs ++ [msg]) n w).
Proof. unfold warning, after; simpl. by rewrite rev_app_distr. Qed.

Lemma setitem_ok buf i v :
  0 <= v < 256 -> (i < List.length buf)%nat ->
  setitem buf i v = mret (<[i:=v]> buf).
Proof.
  intros Hv Hi. unfold setitem.
  by rewrite (bool_decide_eq_true_2 _ Hv), (bool_decide_eq_true_2 _ Hi).
Qed.

Lemma to_bytes_ok x :
  0 <= x <= 65535 -> to_bytes x = mret [x / 256; x mod 256].
Proof.
  intros Hx. unfold to_bytes.
  rewrite bool_decide_eq_false_2 by lia.
  by rewrite bool_decide_eq_false_2 by lia.
Qed.

Lemma byte_pair_range x :
  0 <= x <= 65535 -> 0 <= x / 256 < 256 /\ 0 <= x mod 256 < 256.
Proof.
  intros Hx. split; [|apply Z.mod_pos_bound; lia].
  split; [apply Z.div_pos; lia | apply Z.div_lt_upper_bound; lia].
Qed.

Lemma getitem_ok {A : Type} (l : list A) i v :
  l !! i = Some v -> getitem l i = mret v.
Proof. intros H. unfold getitem. by rewrite H. Qed.

(** One step of the running computation: expose the first statement, run
    it with the lemma that fits, and reduce the match on its result. *)
Ltac buf_length :=
  rewrite ?length_insert, ?length_replicate; unfold _WRITE_LENGTH;
  simpl; lia.

Ltac step :=
  first
    [ rewrite run_bind
    | rewrite bytearray_after
    | rewrite clear_after
    | rewrite write_after
    | rewrite read_after
    | rewrite warning_after
    | rewrite setitem_ok by (first [lia | buf_length | done])
    | erewrite getitem_ok by reflexivity
    | rewrite run_ret
    | rewrite run_raise ];
  cbv beta iota.

Ltac steps := repeat step.

(** ** Fixed-speed and curve frames *)

(** C6: [set_speed_graph] with thermometer 0, fan 0, temperatures
    20, 30, 40, 60, 80, 100 and speeds 800, 1000, 1250, 1500, 2000, 2500
    clears the enqueued reports, writes one frame and reads one response.
    The frame is 64 bytes: the SET_FAN_SPEED_GRAPH code 0x25, two zero bytes,
    the six temperatures times 100 as big-endian pairs from offset 3, the six
    speeds as big-endian pairs from offset 15, and zeros. *)
Theorem set_speed_graph_example_frame :
  forall w,
    let frame :=
      [_Command.value _Command.SET_FAN_SPEED_GRAPH; 0; 0]
        ++ concat (map big_endian_pair [2000; 3000; 4000; 6000; 8000; 10000])
        ++ concat (map big_endian_pair [800; 1000; 1250; 1500; 2000; 2500])
        ++ replicate 37 0 in
    set_speed_graph 0 0 example_temps example_speeds w
    = (Ok tt, after (ClearEnqueuedReports :: exchange frame) [] 1 w)
    /\ List.length frame = _WRITE_LENGTH
    /\ _Command.value _Command.SET_FAN_SPEED_GRAPH = 0x25
    /\ take 12 (drop 3 frame)
       = concat (map big_endian_pair (map (Z.mul 100) example_temps))
    /\ take 12 (drop 15 frame) = concat (map big_endian_pair example_speeds).
Proof. intros w. repeat split; vm_compute; reflexivity. Qed.

(** C3: fan index 6 passes the range check of [set_speed_graph]: with
    thermometer 0 and the example curve the call returns normally after
    writing a frame whose fan byte is 6. *)
Theorem set_speed_graph_accepts_fan_6 :
  forall w,
    set_speed_graph 0 6 example_temps example_speeds w
    = (Ok tt,
       after (ClearEnqueuedReports
                :: exchange (padded [0x25; 6; 0;
                                     7; 208; 11; 184; 15; 160;
                                     23; 112; 31; 64; 39; 16;
                                     3; 32; 3; 232; 4; 226;
                                     5; 220; 7; 208; 9; 196]))
             [] 1 w).
Proof. intros w. vm_compute. reflexivity. Qed.

(** C2: for every fan in [0,5] and speed in [0,65535], [set_speed_rpm] stops
    with a NameError at the load of [channel_index], after the warning (when
    the speed is above 2500) and the creation of the buffer, and before any
    call on the transport: no frame is issued. *)
Theorem set_speed_rpm_raises_NameError :
  forall fan speed w,
    0 <= fan <= 5 -> 0 <= speed <= 65535 ->
    set_speed_rpm fan speed w
    = (Raise (NameError "channel_index"),
       after []
             (if bool_decide (speed > 2500)
              then ["speed greater than 2500 may be bad idea"] else [])
             1 w).
Proof.
  intros fan speed w Hfan Hspeed. apply from_start. unfold set_speed_rpm.
  rewrite bool_decide_eq_false_2 by lia.
  rewrite bool_decide_eq_false_2 by lia.
  rewrite (bool_decide_eq_false_2 (speed > 65535)) by lia.
  case_bool_decide; steps; reflexivity.
Qed.

Lemma set_speed_rpm_raises_NameError_witness :
  set_speed_rpm 0 1000 idle
  = (Raise (NameError "channel_index"), after [] [] 1 idle).
Proof.
  apply (set_speed_rpm_raises_NameError 0 1000 idle); lia.
Defined.

(** ** LED programming sequence *)

(** C1: with a first group in alternating mode (red, green, blue) and a
    second group in random mode, the second per-group frame has colour-mode
    byte 1 (random) and carries the first group's colours in bytes 9-17. *)
Theorem random_frame_carries_earlier_colours :
  forall w,
    let group1 := padded [0x35; 0; 0x00; 0x0C; 4; 0; 1; 0; 0xff;
                          255; 0; 0; 0; 255; 0; 0; 0; 255] in
    let group2 := padded [0x35; 0; 0x0C; 0x0C; 4; 0; 1; 1; 0xff;
                          255; 0; 0; 0; 255; 0; 0; 0; 255] in
    LedConfig.apply alternating_then_random w
    = (Ok tt,
       after (ClearEnqueuedReports
                :: flat_map exchange
                     [padded [0x37]; padded [0x34]; padded [0x39; 0; 0x64];
                      padded [0x38; 0; 1]; group1; group2;
                      padded [0x33; 0; 0xff]])
             [] 6 w)
    /\ group2 !! 7%nat = Some (_ColourMode.value _ColourMode.RANDOM)
    /\ slice group2 9 18 = [255; 0; 0; 0; 255; 0; 0; 0; 255].
Proof. intros w. repeat split; vm_compute; reflexivity. Qed.


(** ** The stale-data guard *)

(** C4: on valid arguments [notify_led_temperature], [send_temperature_info]
    and [set_fan_mode] each make exactly two calls on the transport, the
    write of their frame and the read of the response; the enqueued reports
    are not cleared before the write, so the guard does not hold of them. *)
Theorem requests_without_clear :
  (forall channel temperature w,
      0 <= channel <= 1 -> 0 <= temperature <= 65535 ->
      exists frame,
        notify_led_temperature channel temperature w
        = (Ok tt, after (exchange frame) [] 1 w)
        /\ frame !! 0%nat = Some 0x36)
  /\ (forall sensor_index temperature w,
        0 <= sensor_index <= 255 -> 0 <= temperature * 100 <= 65535 ->
        exists frame,
          send_temperature_info sensor_index temperature w
          = (Ok tt, after (exchange frame) [] 1 w)
          /\ frame !! 0%nat = Some 0x26)
  /\ (forall fan mode w,
        0 <= fan <= 5 -> 0 <= mode <= 2 ->
        exists frame,
          set_fan_mode fan mode w = (Ok tt, after (exchange frame) [] 1 w)
          /\ frame !! 0%nat = Some 0x28)
  /\ (forall frame, guarded (exchange frame) = false).
Proof.
  repeat split.
  - intros channel temperature w Hc Ht.
    destruct (byte_pair_range _ Ht) as [Hhi Hlo].
    eexists. split.
    + apply from_start. unfold notify_led_temperature.
      rewrite !bool_decide_eq_false_2 by lia.
      rewrite to_bytes_ok by lia. steps. reflexivity.
    + reflexivity.
  - intros sensor_index temperature w Hs Ht.
    destruct (byte_pair_range _ Ht) as [Hhi Hlo].
    eexists. split.
    + apply from_start. unfold send_temperature_info.
      rewrite !bool_decide_eq_false_2 by lia.
      rewrite to_bytes_ok by lia. steps. reflexivity.
    + reflexivity.
  - intros fan mode w Hf Hm.
    eexists. split.
    + apply from_start. unfold set_fan_mode.
      rewrite !bool_decide_eq_false_2 by lia.
      steps. reflexivity.
    + reflexivity.
Qed.

Lemma requests_without_clear_witness :
  exists frame,
    notify_led_temperature 0 30 idle = (Ok tt, after (exchange frame) [] 1 idle)
    /\ frame !! 0%nat = Some 0x36.
Proof.
  apply (proj1 requests_without_clear 0 30 idle); lia.
Defined.

(** ** Validation comes before the transport *)

Lemma quiet_ret {A : Type} (a : A) : quiet (mret a : M A).
Proof. by intros w. Qed.

Lemma quiet_raise {A : Type} e : quiet (raise e : M A).
Proof. by intros w. Qed.

Lemma quiet_bind {A B : Type} (m : M A) (f : A -> M B) :
  quiet m -> (forall a, quiet (f a)) -> quiet (m ≫= f).
Proof.
  intros Hm Hf w. rewrite run_bind. specialize (Hm w).
  destruct (m w) as [[a|e] w1]; simpl in *; [|done].
  by rewrite Hf.
Qed.

Lemma quiet_setitem buf i v : quiet (setitem buf i v).
Proof. unfold setitem. repeat case_bool_decide; by intros w. Qed.

Lemma quiet_getitem {A : Type} (l : list A) i : quiet (getitem l i).
Proof. unfold getitem. destruct (l !! i); by intros w. Qed.

Lemma quiet_to_bytes x : quiet (to_bytes x).
Proof. unfold to_bytes. repeat case_bool_decide; by intros w. Qed.

Lemma quiet_bytearray n : quiet (bytearray n).
Proof. by intros w. Qed.

Lemma quiet_warning msg : quiet (warning msg).
Proof. by intros w. Qed.

Lemma quiet_load_name locals name : quiet (load_name locals name).
Proof.
  unfold load_name. destruct (find _ locals); [by intros w|].
  destruct (existsb _ _); by intros w.
Qed.

Create HintDb quiet.
#[local] Hint Resolve quiet_ret quiet_raise quiet_setitem quiet_getitem
  quiet_to_bytes quiet_bytearray quiet_warning quiet_load_name : quiet.

Lemma quiet_set_speed_graph_fill range :
  forall buf temps speeds, quiet (set_speed_graph_fill buf temps speeds range).
Proof.
  induction range as [|i range IH]; intros buf temps speeds; simpl.
  - apply quiet_ret.
  - repeat (apply quiet_bind; [solve [auto with quiet] | intros ?]).
    apply IH.
Qed.

Lemma cautious_raise {A : Type} e : cautious (raise e : M A).
Proof. intros w e' w' H. by injection H as _ <-. Qed.

Lemma cautious_bind {A B : Type} (m : M A) (f : A -> M B) :
  quiet m -> (forall a, cautious (f a)) -> cautious (m ≫= f).
Proof.
  intros Hm Hf w e w' H. rewrite run_bind in H. specialize (Hm w).
  destruct (m w) as [[a|e1] w1]; simpl in *.
  - rewrite <- Hm. by eapply Hf.
  - by injection H as _ <-.
Qed.

(** The tail every single-frame operation ends with. *)
Lemma cautious_request (guard : bool) buf :
  cautious ((if guard then clear_enqueued_reports else mret tt);;
            write buf;; resp ← read _READ_LENGTH; mret tt).
Proof. intros w e w' H. destruct guard; discriminate H. Qed.

Ltac cautious_steps :=
  repeat (apply cautious_bind;
          [ first [ apply quiet_set_speed_graph_fill
                  | solve [auto with quiet] ]
          | intros ? ]).

Lemma cautious_set_speed_percent channel duty :
  cautious (set_speed_percent channel duty).
Proof.
  unfold set_speed_percent.
  repeat (case_bool_decide; [apply cautious_raise|]).
  cautious_steps. apply (cautious_request true).
Qed.

Lemma cautious_set_speed_rpm fan speed : cautious (set_speed_rpm fan speed).
Proof.
  unfold set_speed_rpm.
  repeat (case_bool_decide; [apply cautious_raise|]).
  apply cautious_bind; [case_bool_decide; auto with quiet|intros _].
  case_bool_decide; [apply cautious_raise|].
  cautious_steps. apply (cautious_request true).
Qed.

Lemma cautious_set_speed_graph thermometer fan temps speeds :
  cautious (set_speed_graph thermometer fan temps speeds).
Proof.
  unfold set_speed_graph.
  repeat (case_bool_decide; [apply cautious_raise|]).
  cautious_steps. apply (cautious_request true).
Qed.

Lemma cautious_set_fan_mode fan mode : cautious (set_fan_mode fan mode).
Proof.
  unfold set_fan_mode.
  repeat (case_bool_decide; [apply cautious_raise|]).
  cautious_steps. apply (cautious_request false).
Qed.

Lemma cautious_notify_led_temperature channel temperature :
  cautious (notify_led_temperature channel temperature).
Proof.
  unfold notify_led_temperature.
  repeat (case_bool_decide; [apply cautious_raise|]).
  cautious_steps. apply (cautious_request false).
Qed.

Lemma cautious_send_temperature_info sensor_index temperature :
  cautious (send_temperature_info sensor_index temperature).
Proof.
  unfold send_temperature_info.
  repeat (case_bool_decide; [apply cautious_raise|]).
  cautious_steps. apply (cautious_request false).
Qed.

Ltac reject :=
  unfold rejected; repeat case_bool_decide; try lia;
  (eexists _, _; split; [reflexivity | done]).


Lemma set_speed_rpm_rejects fan speed w :
  fan < 0 \/ fan > 5 \/ speed < 0 \/ speed > 65535 ->
  rejected (set_speed_rpm fan speed w) w.
Proof. intros H. unfold set_speed_rpm. reject. Qed.








(** ** The LED sequence in general *)

Lemma FanID_byte f : 0 <= _FanID.value f < 256.
Proof. destruct f; simpl; lia. Qed.

Lemma Effect_byte e : 0 <= _Effect.value e < 256.
Proof. destruct e; simpl; lia. Qed.

Lemma Speed_byte s : 0 <= _Speed.value s < 256.
Proof. destruct s; simpl; lia. Qed.

Lemma Direction_byte d : 0 <= _Direction.value d < 256.
Proof. destruct d; simpl; lia. Qed.

Lemma ColourMode_byte m : 0 <= _ColourMode.value m < 256.
Proof. destruct m; simpl; lia. Qed.

Lemma Channel_byte c : 0 <= _Channel.value c < 256.
Proof. destruct c; simpl; lia. Qed.

Lemma LedType_byte l : 0 <= _LedType.value l < 256.
Proof. destruct l; simpl; lia. Qed.

Lemma Brightness_byte b : 0 <= _Brightness.value b < 256.
Proof. destruct b; simpl; lia. Qed.

Lemma rgb_inv colour :
  rgb colour = true ->
  exists r g b rest,
    colour = r :: g :: b :: rest
    /\ 0 <= r < 256 /\ 0 <= g < 256 /\ 0 <= b < 256.
Proof.
  destruct colour as [|r [|g [|b rest]]]; try discriminate. simpl.
  rewrite !andb_true_iff, !bool_decide_eq_true. intros [[Hr Hg] Hb].
  by exists r, g, b, rest.
Qed.

Lemma group_frame_length buf fanConfig :
  List.length (group_frame buf fanConfig) = List.length buf.
Proof.
  unfold group_frame. destruct (_ColourMode.eqb _ _); by rewrite !length_insert.
Qed.

Lemma apply_fanConfigs_run configs :
  forall buf cs msgs n w,
    List.length buf = 64%nat ->
    forallb colours_ok configs = true ->
    exists buf',
      LedConfig.apply_fanConfigs buf configs (after cs msgs n w)
      = (Ok buf',
         after (cs ++ flat_map exchange (group_frames buf configs)) msgs n w).
Proof.
  induction configs as [|fanConfig rest IH]; intros buf cs msgs n w Hlen Hok.
  - exists buf. simpl. by rewrite app_nil_r.
  - simpl in Hok. apply andb_true_iff in Hok as [Hfc Hrest].
    destruct (IH (group_frame buf fanConfig) (cs ++ exchange (group_frame buf fanConfig))
                 msgs n w) as [buf' Hrun].
    { by rewrite group_frame_length. }
    { done. }
    exists buf'.
    replace (cs ++ flat_map exchange (group_frames buf (fanConfig :: rest)))
      with ((cs ++ exchange (group_frame buf fanConfig))
              ++ flat_map exchange
                   (group_frames (group_frame buf fanConfig) rest))
      by (simpl; by rewrite <- app_assoc).
    rewrite <- Hrun. clear Hrun IH.
    unfold LedConfig.apply_fanConfigs at 1; fold LedConfig.apply_fanConfigs.
    unfold group_frame, colours_ok in *.
    pose proof (FanID_byte (FanConfig.fan fanConfig)).
    pose proof (Effect_byte (FanConfig.effect fanConfig)).
    pose proof (Speed_byte (FanConfig.speed fanConfig)).
    pose proof (Direction_byte (FanConfig.direction fanConfig)).
    pose proof (ColourMode_byte (FanConfig.colourMode fanConfig)).
    destruct (_ColourMode.eqb _ _); simpl negb.
    + steps. unfold exchange. by rewrite <- app_assoc.
    + simpl in Hfc. apply andb_true_iff in Hfc as [Hfc Hc3].
      apply andb_true_iff in Hfc as [Hc1 Hc2].
      apply rgb_inv in Hc1 as (r1 & g1 & b1 & t1 & -> & ? & ? & ?).
      apply rgb_inv in Hc2 as (r2 & g2 & b2 & t2 & -> & ? & ? & ?).
      apply rgb_inv in Hc3 as (r3 & g3 & b3 & t3 & -> & ? & ? & ?).
      steps. unfold exchange. by rewrite <- app_assoc.
Qed.

Lemma LedConfig_apply_run self w :
  forallb colours_ok (LedConfig.fanConfigs self) = true ->
  LedConfig.apply self w
  = (Ok tt,
     after (ClearEnqueuedReports
              :: flat_map exchange
                   (priming self
                      ++ group_frames (group_buffer self)
                                      (LedConfig.fanConfigs self)
                      ++ [trigger]))
           [] 6 w).
Proof.
  intros Hok. apply from_start. unfold LedConfig.apply.
  pose proof (Channel_byte (LedConfig.channel self)).
  pose proof (LedType_byte (LedConfig.ledType self)).
  pose proof (Brightness_byte (LedConfig.brightness self)).
  steps.
  match goal with
  | |- context [LedConfig.apply_fanConfigs ?b _ (after ?cs ?ms ?n _)] =>
      destruct (apply_fanConfigs_run (LedConfig.fanConfigs self) b cs ms n w)
        as [buf' Hrun]; [buf_length | done | rewrite Hrun];
      change b with (group_buffer self)
  end.
  steps. do 2 f_equal.
  rewrite !flat_map_app. unfold priming, trigger, exchange. simpl flat_map.
  rewrite <- !app_assoc. reflexivity.
Qed.

Lemma group_frames_length configs :
  forall buf, List.length (group_frames buf configs) = List.length configs.
Proof. induction configs as [|c rest IH]; intros buf; simpl; [done|by rewrite IH]. Qed.

(** The loop leaves bytes 0, 1, 3 and 8 of the shared buffer alone. *)
Lemma group_frame_keeps buf fanConfig (i : nat) :
  (i = 0 \/ i = 1 \/ i = 3 \/ i = 8)%nat ->
  group_frame buf fanConfig !! i = buf !! i.
Proof.
  intros Hi. unfold group_frame.
  destruct (_ColourMode.eqb _ _); by rewrite !list_lookup_insert_ne by lia.
Qed.

Lemma group_frame_fan buf fanConfig :
  (2 < List.length buf)%nat ->
  group_frame buf fanConfig !! 2%nat
  = Some (_FanID.value (FanConfig.fan fanConfig)).
Proof.
  intros Hlen. unfold group_frame.
  destruct (_ColourMode.eqb _ _);
    rewrite !list_lookup_insert_ne by lia;
    by rewrite list_lookup_insert_eq.
Qed.

Lemma group_frames_shape configs :
  forall buf c,
    List.length buf = 64%nat -> buf !! 0%nat = Some c ->
    Forall (fun frame => List.length frame = 64%nat /\ frame !! 0%nat = Some c)
           (group_frames buf configs)
    /\ map (fun frame => frame !! 2%nat) (group_frames buf configs)
       = map (fun fanConfig => Some (_FanID.value (FanConfig.fan fanConfig)))
             configs.
Proof.
  induction configs as [|fanConfig rest IH]; intros buf c Hlen Hc; simpl.
  - by split.
  - assert (Hlen' : List.length (group_frame buf fanConfig) = 64%nat)
      by by rewrite group_frame_length.
    assert (Hc' : group_frame buf fanConfig !! 0%nat = Some c)
      by (rewrite group_frame_keeps; [done | by left]).
    destruct (IH _ _ Hlen' Hc') as [Hall Hfans]. split.
    + by constructor.
    + rewrite Hfans, group_frame_fan by lia. done.
Qed.

(** C5: applying an LED configuration whose N group configs have RGB
    triples for colours (where their mode has the colours copied) clears the
    enqueued reports once and then makes 4 + N + 1 writes, each followed by
    one read of 16 bytes: the frames 0x37, 0x34, 0x39 (with the brightness),
    0x38, then one 0x35 frame of 64 bytes per group config in the order
    given, each with its group's LED offset in byte 2, then the 0x33 frame.
    The frames and the calls are the same whatever the device answers. *)
Theorem led_sequence_order :
  forall self,
    forallb colours_ok (LedConfig.fanConfigs self) = true ->
    exists group,
      List.length group = List.length (LedConfig.fanConfigs self)
      /\ Forall (fun frame =>
                  List.length frame = 64%nat /\ frame !! 0%nat = Some 0x35)
               group
      /\ map (fun frame => frame !! 2%nat) group
         = map (fun fanConfig => Some (_FanID.value (FanConfig.fan fanConfig)))
               (LedConfig.fanConfigs self)
      /\ let sequence :=
           [padded [0x37]; padded [0x34];
            padded [0x39; 0; _Brightness.value (LedConfig.brightness self)];
            padded [0x38; 0; 1]]
             ++ group ++ [padded [0x33; 0; 0xff]] in
         List.length sequence
         = (4 + List.length (LedConfig.fanConfigs self) + 1)%nat
         /\ forall w,
             LedConfig.apply self w
             = (Ok tt,
                after (ClearEnqueuedReports :: flat_map exchange sequence)
                      [] 6 w).
Proof.
  intros self Hok.
  exists (group_frames (group_buffer self) (LedConfig.fanConfigs self)).
  destruct (group_frames_shape (LedConfig.fanConfigs self)
              (group_buffer self) 0x35 eq_refl eq_refl) as [Hall Hfans].
  repeat split; try done.
  - apply group_frames_length.
  - rewrite length_app, length_app, group_frames_length. simpl. lia.
  - intros w. by apply LedConfig_apply_run.
Qed.

Lemma led_sequence_order_witness :
  exists group,
    List.length group = 2%nat
    /\ Forall (fun frame =>
                List.length frame = 64%nat /\ frame !! 0%nat = Some 0x35)
             group
    /\ map (fun frame => frame !! 2%nat) group = [Some 0x00; Some 0x0C]
    /\ let sequence :=
         [padded [0x37]; padded [0x34]; padded [0x39; 0; 0x64];
          padded [0x38; 0; 1]]
           ++ group ++ [padded [0x33; 0; 0xff]] in
       List.length sequence = 7%nat
       /\ forall w,
           LedConfig.apply alternating_then_random w
           = (Ok tt,
              after (ClearEnqueuedReports :: flat_map exchange sequence)
                    [] 6 w).
Proof.
  apply (led_sequence_order alternating_then_random). reflexivity.
Defined.

(** ** Two addressings: LED groups and fan slots *)

Ltac use_rgb :=
  unfold colours_ok; simpl;
  repeat match goal with H : _ /\ _ |- _ => destruct H end;
  repeat match goal with H : rgb _ = true |- _ => rewrite H; clear H end;
  reflexivity.

Lemma set_color_run channel mode colors w e c :
  _Effect.of_name mode = Some e -> _Channel.of_name channel = Some c ->
  (1 <= List.length colors <= 3)%nat -> forallb rgb colors = true ->
  exists configs,
    map FanConfig.fan configs
    = [_FanID.FAN_1; _FanID.FAN_2; _FanID.FAN_3;
       _FanID.FAN_4; _FanID.FAN_5; _FanID.FAN_6]
    /\ forallb colours_ok configs = true
    /\ set_color channel mode colors w
       = LedConfig.apply
           (LedConfig.Build c _LedType.HD_FAN _Brightness.MAX configs) w.
Proof.
  intros He Hc Hlen Hrgb. unfold set_color. rewrite He, Hc. unfold member.
  destruct colors as [|c0 [|c1 [|c2 [|c3 rest]]]]; simpl in Hlen; try lia;
    simpl in Hrgb; rewrite ?andb_true_iff in Hrgb;
    (eexists; split; [|split]; [| |steps; simpl; steps; reflexivity]);
    [reflexivity | use_rgb ..].
Qed.

(** C10: the LED group offsets of the six fan slots are 0x0C times the slot
    index, 0x00 to 0x3C, so slot 3 has offset 0x24 and not 0x03; the
    per-group frames of the LED sequence carry this offset in byte 2 (those
    of [set_color], which programs the six slots in order, carry 0x0C * i for
    i = 0..5), whereas the frames of [set_speed_percent] and of
    [set_speed_graph] carry the plain fan index in byte 1. *)
Theorem led_group_offsets :
  map _FanID.value [_FanID.FAN_1; _FanID.FAN_2; _FanID.FAN_3;
                    _FanID.FAN_4; _FanID.FAN_5; _FanID.FAN_6]
  = map (fun i => 0x0C * i) [0; 1; 2; 3; 4; 5]
  /\ _FanID.value _FanID.FAN_4 = 0x24
  /\ _FanID.value _FanID.FAN_4 ≠ 0x03
  /\ (forall buf configs,
        List.length buf = 64%nat ->
        map (fun frame => frame !! 2%nat) (group_frames buf configs)
        = map (fun fanConfig => Some (_FanID.value (FanConfig.fan fanConfig)))
              configs)
  /\ (forall channel mode colors w,
        is_Some (_Effect.of_name mode) ->
        is_Some (_Channel.of_name channel) ->
        (1 <= List.length colors <= 3)%nat -> forallb rgb colors = true ->
        exists first4 group,
          set_color channel mode colors w
          = (Ok tt,
             after (ClearEnqueuedReports
                      :: flat_map exchange (first4 ++ group ++ [trigger]))
                   [] 6 w)
          /\ List.length first4 = 4%nat
          /\ map (fun frame => frame !! 2%nat) group
             = map (fun i => Some (0x0C * i)) [0; 1; 2; 3; 4; 5])
  /\ (forall fan duty w,
        0 <= fan <= 5 -> 0 <= duty <= 100 ->
        exists frame,
          set_speed_percent fan duty w
          = (Ok tt, after (ClearEnqueuedReports :: exchange frame) [] 1 w)
          /\ frame !! 1%nat = Some fan)
  /\ (forall fan w,
        0 <= fan <= 5 ->
        exists frame,
          set_speed_graph 0 fan example_temps example_speeds w
          = (Ok tt, after (ClearEnqueuedReports :: exchange frame) [] 1 w)
          /\ frame !! 1%nat = Some fan).
Proof.
  repeat apply conj; try done.
  - intros buf configs Hlen.
    destruct (buf !! 0%nat) as [c|] eqn:Hc.
    + by destruct (group_frames_shape configs buf c Hlen Hc).
    + apply lookup_ge_None in Hc. lia.
  - intros channel mode colors w [e He] [c Hc] Hlen Hrgb.
    destruct (set_color_run channel mode colors w e c He Hc Hlen Hrgb)
      as (configs & Hfans & Hok & ->).
    eexists _, _. split; [by apply LedConfig_apply_run|]. split; [done|].
    simpl LedConfig.fanConfigs.
    destruct (group_frames_shape configs
                (group_buffer
                   (LedConfig.Build c _LedType.HD_FAN _Brightness.MAX configs))
                0x35 eq_refl eq_refl) as [_ ->].
    by rewrite <- (map_map FanConfig.fan (fun f => Some (_FanID.value f))), Hfans.
  - intros fan duty w Hfan Hduty. eexists. split.
    + apply from_start. unfold set_speed_percent.
      rewrite !bool_decide_eq_false_2 by lia. steps. reflexivity.
    + reflexivity.
  - intros fan w Hfan. eexists. split.
    + unfold set_speed_graph.
      rewrite !bool_decide_eq_false_2 by (simpl; lia).
      rewrite run_bind. cbv beta iota delta [bytearray].
      rewrite run_bind, setitem_ok by (first [lia | buf_length]).
      rewrite run_ret. cbv beta iota.
      rewrite run_bind, setitem_ok by (first [lia | buf_length]).
      rewrite run_ret. cbv beta iota.
      vm_compute. reflexivity.
    + vm_compute. reflexivity.
Qed.

Lemma led_group_offsets_witness :
  exists first4 group,
    set_color "CHANNEL_1" "STATIC" [[255; 0; 0]] idle
    = (Ok tt,
       after (ClearEnqueuedReports
                :: flat_map exchange (first4 ++ group ++ [trigger]))
             [] 6 idle)
    /\ List.length first4 = 4%nat
    /\ map (fun frame => frame !! 2%nat) group
       = map (fun i => Some (0x0C * i)) [0; 1; 2; 3; 4; 5].
Proof.
  apply (proj1 (proj2 (proj2 (proj2 (proj2 led_group_offsets))))
           "CHANNEL_1" "STATIC" [[255; 0; 0]] idle);
    first [by eexists | simpl; lia | reflexivity].
Defined.

(** ** Status aggregation *)

Lemma get_fan_speed_rpm_run (fanIndex : Z) cs msgs n w :
  0 <= fanIndex < 256 ->
  exists speed frame,
    get_fan_speed_rpm fanIndex (after cs msgs n w)
    = (Ok speed,
       after (cs ++ ClearEnqueuedReports :: exchange frame) msgs (S n) w).
Proof.
  intros Hi. eexists _, _. unfold get_fan_speed_rpm. steps.
  unfold exchange. rewrite <- !app_assoc. reflexivity.
Qed.

Lemma get_temperature_run (index : Z) cs msgs n w :
  0 <= index <= 3 ->
  exists temp frame,
    get_temperature index (after cs msgs n w)
    = (Ok temp,
       after (cs ++ ClearEnqueuedReports :: exchange frame) msgs (S n) w).
Proof.
  intros Hi. eexists _, _. unfold get_temperature.
  rewrite bool_decide_eq_false_2 by lia. steps.
  unfold exchange. rewrite <- !app_assoc. reflexivity.
Qed.

Lemma get_fan_status_loop_run range :
  forall report acc cs msgs n w,
    Forall (fun i => (1 <= i < List.length report)%nat /\ (i <= 256)%nat) range ->
    exists speeds cs' n',
      List.length speeds = List.length range
      /\ get_fan_status_loop report range acc (after cs msgs n w)
         = (Ok (acc ++ concat (zip_with
                                 (fun i v => fan_samples i (report !!! i) v)
                                 range speeds)),
            after cs' msgs n' w).
Proof.
  induction range as [|i range IH]; intros report acc cs msgs n w Hrange.
  - exists [], cs, n. split; [done|]. simpl. by rewrite app_nil_r.
  - apply Forall_cons in Hrange as [[Hi Hb] Hrange].
    destruct (lookup_lt_is_Some_2 report i) as [b Hlook]; [lia|].
    simpl get_fan_status_loop. rewrite run_bind.
    rewrite (getitem_ok _ _ _ Hlook), run_ret. cbv beta iota zeta.
    fold (fan_label b). rewrite run_bind.
    destruct (bool_decide (b = 1 \/ b = 2)) eqn:Hconn.
    + rewrite run_bind.
      destruct (get_fan_speed_rpm_run (Z.of_nat i - 1) cs msgs n w)
        as (speed & frame & ->); [lia|].
      rewrite run_ret. cbv beta iota.
      edestruct IH as (speeds & cs' & n' & Hlen & ->); [exact Hrange|].
      exists (speed :: speeds), cs', n'. split; [simpl; by rewrite Hlen|].
      cbn [zip_with concat].
      rewrite (list_lookup_total_correct _ _ _ Hlook).
      replace (fan_samples i b speed) with
        [(("Fan " +:+ fmt_d (Z.of_nat i)) +:+ " status",
          PyStr (fan_label b), "");
         (("Fan " +:+ fmt_d (Z.of_nat i)) +:+ " speed", PyInt speed, "rpm")]
        by (unfold fan_samples; by rewrite Hconn).
      by rewrite <- !app_assoc.
    + rewrite run_ret. cbv beta iota.
      edestruct IH as (speeds & cs' & n' & Hlen & ->); [exact Hrange|].
      exists (0 :: speeds), cs', n'. split; [simpl; by rewrite Hlen|].
      cbn [zip_with concat].
      rewrite (list_lookup_total_correct _ _ _ Hlook).
      replace (fan_samples i b 0) with
        [(("Fan " +:+ fmt_d (Z.of_nat i)) +:+ " status",
          PyStr (fan_label b), "")]
        by (unfold fan_samples; by rewrite Hconn).
      by rewrite <- !app_assoc.
Qed.

Lemma get_thermometer_status_loop_run range :
  forall report acc cs msgs n w,
    Forall (fun i => (1 <= i < List.length report)%nat /\ (i <= 4)%nat) range ->
    exists temps cs' n',
      List.length temps = List.length range
      /\ get_thermometer_status_loop report range acc (after cs msgs n w)
         = (Ok (acc ++ concat (zip_with
                                 (fun i t =>
                                    thermometer_samples i (report !!! i) t)
                                 range temps)),
            after cs' msgs n' w).
Proof.
  induction range as [|i range IH]; intros report acc cs msgs n w Hrange.
  - exists [], cs, n. split; [done|]. simpl. by rewrite app_nil_r.
  - apply Forall_cons in Hrange as [[Hi Hb] Hrange].
    destruct (lookup_lt_is_Some_2 report i) as [b Hlook]; [lia|].
    simpl get_thermometer_status_loop. rewrite run_bind.
    rewrite (getitem_ok _ _ _ Hlook), run_ret. cbv beta iota zeta.
    fold (thermometer_label b). rewrite run_bind.
    destruct (bool_decide (b = 1)) eqn:Hconn.
    + rewrite run_bind.
      destruct (get_temperature_run (Z.of_nat i - 1) cs msgs n w)
        as (temp & frame & ->); [lia|].
      rewrite run_ret. cbv beta iota.
      edestruct IH as (temps & cs' & n' & Hlen & ->); [exact Hrange|].
      exists (temp :: temps), cs', n'. split; [simpl; by rewrite Hlen|].
      cbn [zip_with concat].
      rewrite (list_lookup_total_correct _ _ _ Hlook).
      replace (thermometer_samples i b temp) with
        [(("Thermometer " +:+ fmt_d (Z.of_nat i)) +:+ " status",
          PyStr (thermometer_label b), "");
         (("Thermometer " +:+ fmt_d (Z.of_nat i)) +:+ " temperature",
          PyFloat temp, "°C")]
        by (unfold thermometer_samples; by rewrite Hconn).
      by rewrite <- !app_assoc.
    + rewrite run_ret. cbv beta iota.
      edestruct IH as (temps & cs' & n' & Hlen & ->); [exact Hrange|].
      exists (PrimFloat.zero :: temps), cs', n'.
      split; [simpl; by rewrite Hlen|].
      cbn [zip_with concat].
      rewrite (list_lookup_total_correct _ _ _ Hlook).
      replace (thermometer_samples i b PrimFloat.zero) with
        [(("Thermometer " +:+ fmt_d (Z.of_nat i)) +:+ " status",
          PyStr (thermometer_label b), "")]
        by (unfold thermometer_samples; by rewrite Hconn).
      by rewrite <- !app_assoc.
Qed.

Lemma full_report_length w log :
  full_reports w ->
  List.length (take _READ_LENGTH (respond w log)) = 16%nat.
Proof.
  intros Hfull. specialize (Hfull log). rewrite length_take.
  unfold _READ_LENGTH in *. lia.
Qed.

Lemma get_fan_status_run w :
  full_reports w ->
  let report :=
    take _READ_LENGTH
         (respond w (Write (padded [0x20]) :: ClearEnqueuedReports :: calls w))
  in
  exists speeds cs n,
    List.length speeds = 6%nat
    /\ get_fan_status w
       = (Ok (concat (zip_with (fun i v => fan_samples i (report !!! i) v)
                               (seq 1 6) speeds)),
          after cs [] n w).
Proof.
  intros Hfull report.
  replace (get_fan_status w) with (get_fan_status (after [] [] 0 w))
    by (by rewrite after_nothing).
  unfold get_fan_status. steps.
  match goal with
  | |- context [get_fan_status_loop ?r _ _ (after ?cs ?ms ?n _)] =>
      change r with report;
      destruct (get_fan_status_loop_run (seq 1 6) report [] cs ms n w)
        as (speeds & cs' & n' & Hlen & ->)
  end.
  - pose proof (full_report_length w
                  (Write (padded [0x20]) :: ClearEnqueuedReports :: calls w)
                  Hfull) as Hlen.
    fold report in Hlen. rewrite Hlen.
    repeat constructor; lia.
  - by exists speeds, cs', n'.
Qed.

Lemma get_thermometer_status_run w :
  full_reports w ->
  let report :=
    take _READ_LENGTH
         (respond w (Write (padded [0x10]) :: ClearEnqueuedReports :: calls w))
  in
  exists temps cs n,
    List.length temps = 4%nat
    /\ get_thermometer_status w
       = (Ok (concat (zip_with
                        (fun i t => thermometer_samples i (report !!! i) t)
                        (seq 1 4) temps)),
          after cs [] n w).
Proof.
  intros Hfull report.
  replace (get_thermometer_status w)
    with (get_thermometer_status (after [] [] 0 w))
    by (by rewrite after_nothing).
  unfold get_thermometer_status. steps.
  match goal with
  | |- context [get_thermometer_status_loop ?r _ _ (after ?cs ?ms ?n _)] =>
      change r with report;
      destruct (get_thermometer_status_loop_run (seq 1 4) report [] cs ms n w)
        as (temps & cs' & n' & Hlen & ->)
  end.
  - pose proof (full_report_length w
                  (Write (padded [0x10]) :: ClearEnqueuedReports :: calls w)
                  Hfull) as Hlen.
    fold report in Hlen. rewrite Hlen.
    repeat constructor; lia.
  - by exists temps, cs', n'.
Qed.

(** C8, as the code has it: when the device always has a full report ready,
    [get_fan_status] and [get_thermometer_status] return normally.  For each
    fan slot 1 to 6 the result holds a status property (byte 0 disconnected,
    1 connected with 3 pins, 2 connected with 4 pins, any other byte unknown)
    followed by a speed property exactly when the byte is 1 or 2.  For each
    thermometer slot 1 to 4 it holds a status property (byte 0 disconnected,
    1 connected, any other byte, 2 included, unknown) followed by a
    temperature property exactly when the byte is 1. *)
Theorem status_decoding :
  forall w,
    full_reports w ->
    (let report :=
       take _READ_LENGTH
            (respond w
               (Write (padded [0x20]) :: ClearEnqueuedReports :: calls w)) in
     exists speeds,
       List.length speeds = 6%nat
       /\ fst (get_fan_status w)
          = Ok (concat (zip_with (fun i v => fan_samples i (report !!! i) v)
                                 [1; 2; 3; 4; 5; 6]%nat speeds)))
    /\ (let report :=
          take _READ_LENGTH
               (respond w
                  (Write (padded [0x10]) :: ClearEnqueuedReports :: calls w))
        in
        exists temps,
          List.length temps = 4%nat
          /\ fst (get_thermometer_status w)
             = Ok (concat (zip_with
                             (fun i t =>
                                thermometer_samples i (report !!! i) t)
                             [1; 2; 3; 4]%nat temps)))
    /\ (forall b, b < 0 \/ b > 2 -> fan_label b = "unknown")
    /\ (forall b, b < 0 \/ b > 1 -> thermometer_label b = "unknown").
Proof.
  intros w Hfull. repeat apply conj.
  - destruct (get_fan_status_run w Hfull) as (speeds & cs & n & Hlen & Hrun).
    exists speeds. by rewrite Hrun.
  - destruct (get_thermometer_status_run w Hfull)
      as (temps & cs & n & Hlen & Hrun).
    exists temps. by rewrite Hrun.
  - intros b Hb. unfold fan_label. by rewrite !bool_decide_eq_false_2 by lia.
  - intros b Hb. unfold thermometer_label.
    by rewrite !bool_decide_eq_false_2 by lia.
Qed.

Lemma status_decoding_witness :
  (exists speeds,
      List.length speeds = 6%nat
      /\ fst (get_fan_status (steady mixed_report))
         = Ok (concat (zip_with
                         (fun i v => fan_samples i (mixed_report !!! i) v)
                         [1; 2; 3; 4; 5; 6]%nat speeds)))
  /\ (exists temps,
        List.length temps = 4%nat
        /\ fst (get_thermometer_status (steady mixed_report))
           = Ok (concat (zip_with
                           (fun i t =>
                              thermometer_samples i (mixed_report !!! i) t)
                           [1; 2; 3; 4]%nat temps))).
Proof.
  assert (Hfull : full_reports (steady mixed_report))
    by (intros log; simpl; unfold _READ_LENGTH; lia).
  split.
  - exact (proj1 (status_decoding (steady mixed_report) Hfull)).
  - exact (proj1 (proj2 (status_decoding (steady mixed_report) Hfull))).
Defined.

(** The rule stated for fans and thermometers alike fails on thermometers: a
    device whose first thermometer reports status byte 2 gets the status
    "unknown" for it and no temperature property. *)
Lemma thermometer_code_2_unsampled :
  exists properties,
    fst (get_thermometer_status (steady thermometer_code_2)) = Ok properties
    /\ In ("Thermometer 1 status", PyStr "unknown", "") properties
    /\ ~ reading_iff_connected thermometer_code_2 properties
                               "Thermometer 1 temperature" 1.
Proof.
  eexists. split; [vm_compute; reflexivity|]. split; [by left|].
  intros Hrule. destruct (Hrule 2 eq_refl) as [Hsampled _].
  specialize (Hsampled (or_intror eq_refl)). discriminate Hsampled.
Qed.

(** ** Temperatures on the wire *)

Lemma from_bytes_pair x :
  0 <= x <= 65535 -> from_bytes (big_endian_pair x) = x.
Proof.
  intros Hx. unfold from_bytes, big_endian_pair. simpl.
  pose proof (Z.div_mod x 256). lia.
Qed.

(** Dividing a hundredfold of [t] by 100 gives back [t] exactly as a double,
    for each of the 656 values a byte pair can hold hundredfold. *)
Lemma truediv_hundredfold t :
  0 <= t <= 655 -> truediv (t * 100) 100 = float_of_int t.
Proof.
  intros Ht.
  assert (Hall : Forall (fun t => truediv (t * 100) 100 = float_of_int t)
                        (List.map Z.of_nat (seq 0 656))).
  { vm_compute. repeat constructor. }
  rewrite List.Forall_forall in Hall. apply Hall.
  apply in_map_iff. exists (Z.to_nat t). split; [lia|].
  apply in_seq. lia.
Qed.

Lemma get_temperature_steady index report :
  0 <= index <= 3 ->
  fst (get_temperature index (steady report))
  = Ok (truediv (from_bytes (slice (take _READ_LENGTH report) 1 3)) 100).
Proof.
  intros Hi.
  replace (steady report) with (after [] [] 0 (steady report))
    by apply after_nothing.
  unfold get_temperature. rewrite bool_decide_eq_false_2 by lia.
  steps. reflexivity.
Qed.

(** C7, as the code has it: for every integer temperature t in [0,655]
    (so in [0,650]), [send_temperature_info] writes t * 100 as a big-endian
    byte pair in bytes 2-3 of its frame, and [get_temperature] on a report
    holding that pair in bytes 1-2 returns exactly t; for a negative t, or
    one above 655, [send_temperature_info] raises OverflowError and sends no
    frame. *)
Theorem temperature_round_trip :
  (forall t sensor_index w,
      0 <= t <= 655 -> 0 <= sensor_index <= 255 ->
      send_temperature_info sensor_index t w
      = (Ok tt,
         after (exchange (padded ([0x26; sensor_index]
                                    ++ big_endian_pair (t * 100))))
               [] 1 w))
  /\ (forall t index,
        0 <= t <= 655 -> 0 <= index <= 3 ->
        fst (get_temperature index
               (steady ([0] ++ big_endian_pair (t * 100) ++ replicate 13 0)))
        = Ok (float_of_int t))
  /\ (forall t sensor_index w,
        t < 0 \/ t > 655 -> 0 <= sensor_index <= 255 ->
        exists msg,
          send_temperature_info sensor_index t w
          = (Raise (OverflowError msg), after [] [] 1 w)).
Proof.
  repeat apply conj.
  - intros t sensor_index w Ht Hs.
    destruct (byte_pair_range (t * 100)) as [Hhi Hlo]; [lia|].
    apply from_start. unfold send_temperature_info.
    rewrite bool_decide_eq_false_2 by lia.
    rewrite to_bytes_ok by lia. steps. reflexivity.
  - intros t index Ht Hi. rewrite get_temperature_steady by done.
    change (slice _ 1 3) with (big_endian_pair (t * 100)).
    by rewrite from_bytes_pair, truediv_hundredfold by lia.
  - intros t sensor_index w Ht Hs.
    unfold send_temperature_info, to_bytes.
    rewrite bool_decide_eq_false_2 by lia.
    destruct Ht.
    + rewrite (bool_decide_eq_true_2 (t * 100 < 0)) by lia.
      eexists. apply from_start. steps. reflexivity.
    + rewrite (bool_decide_eq_false_2 (t * 100 < 0)) by lia.
      rewrite (bool_decide_eq_true_2 (65535 < t * 100)) by lia.
      eexists. apply from_start. steps. reflexivity.
Qed.

Lemma temperature_round_trip_witness :
  send_temperature_info 0 20 idle
  = (Ok tt,
     after (exchange (padded ([0x26; 0] ++ big_endian_pair (20 * 100))))
           [] 1 idle)
  /\ fst (get_temperature 0
            (steady ([0] ++ big_endian_pair (20 * 100) ++ replicate 13 0)))
     = Ok (float_of_int 20).
Proof.
  split.
  - apply (proj1 temperature_round_trip 20 0 idle); lia.
  - apply (proj1 (proj2 temperature_round_trip) 20 0); lia.
Defined.

(** The temperature -50 has no wire value: the conversion of -5000 to two
    unsigned bytes raises OverflowError, in [send_temperature_info] and in
    [set_speed_graph] alike, and nothing is written. *)
Lemma negative_temperature_has_no_wire_value :
  (forall pair w', to_bytes (-50 * 100) idle ≠ (Ok pair, w'))
  /\ send_temperature_info 0 (-50) idle
     = (Raise (OverflowError "can't convert negative int to unsigned"),
        after [] [] 1 idle)
  /\ set_speed_graph 0 0 [-50; 30; 40; 60; 80; 100] example_speeds idle
     = (Raise (OverflowError "can't convert negative int to unsigned"),
        after [] [] 1 idle).
Proof.
  split; [|split].
  - intros pair w'. discriminate.
  - vm_compute. reflexivity.
  - vm_compute. reflexivity.
Qed.

(* ------------------------------------------------------------------ *)
(** * Further properties of the driver *)

(** ** Fan control frames *)

Ltac run_checks := rewrite ?bool_decide_eq_false_2 by (simpl; lia).

(** X1: for a channel in [0,5] and a duty in [0,100], [set_speed_percent]
    (and [set_fixed_speed], which passes its arguments on) clears the
    enqueued reports, writes the 64-byte frame 0x23, channel, duty, zeros,
    reads one response and returns. *)
Theorem set_speed_percent_frame :
  forall channel duty w,
    0 <= channel <= 5 -> 0 <= duty <= 100 ->
    set_speed_percent channel duty w
    = (Ok tt,
       after (ClearEnqueuedReports :: exchange (padded [0x23; channel; duty]))
             [] 1 w)
    /\ set_fixed_speed channel duty w = set_speed_percent channel duty w.
Proof.
  intros channel duty w Hc Hd. split; [|reflexivity].
  apply from_start. unfold set_speed_percent. run_checks.
  steps. reflexivity.
Qed.

Lemma set_speed_percent_frame_witness :
  set_speed_percent 2 75 idle
  = (Ok tt,
     after (ClearEnqueuedReports :: exchange (padded [0x23; 2; 75])) [] 1 idle)
  /\ set_fixed_speed 2 75 idle = set_speed_percent 2 75 idle.
Proof. apply (set_speed_percent_frame 2 75 idle); lia. Defined.

(** [set_speed_rpm] with arguments that pass all its checks. *)
Lemma set_speed_rpm_valid fan speed w :
  0 <= fan <= 5 -> 0 <= speed <= 65535 ->
  exists w',
    set_speed_rpm fan speed w = (Raise (NameError "channel_index"), w')
    /\ calls w' = calls w.
Proof.
  intros Hfan Hspeed. unfold set_speed_rpm. run_checks.
  case_bool_decide; eexists; (split; [reflexivity|done]).
Qed.

(** X2: [set_speed_rpm] never returns normally and never makes a call on the
    transport, whatever its arguments: it raises ValueError on arguments
    that fail a check and NameError on all others. *)
Theorem set_speed_rpm_never_sends :
  forall fan speed w,
    exists e w',
      set_speed_rpm fan speed w = (Raise e, w')
      /\ calls w' = calls w
      /\ (e = NameError "channel_index" \/ exists msg, e = ValueError msg).
Proof.
  intros fan speed w.
  destruct (decide (0 <= fan <= 5 /\ 0 <= speed <= 65535)) as [[Hf Hs]|Hbad].
  - destruct (set_speed_rpm_valid fan speed w Hf Hs) as (w' & Hrun & Hcalls).
    exists (NameError "channel_index"), w'. auto.
  - destruct (set_speed_rpm_rejects fan speed w) as (msg & w' & Hrun & Hcalls & _);
      [lia|].
    exists (ValueError msg), w'. eauto.
Qed.

Ltac steps_u16 :=
  repeat first [ rewrite to_bytes_ok by lia | step ].

(** The frame of [set_speed_graph] for six temperatures and six speeds that
    fit their byte pairs. *)
Lemma set_speed_graph_run thermometer fan t0 t1 t2 t3 t4 t5 s0 s1 s2 s3 s4 s5 w :
  0 <= fan <= 6 -> 0 <= thermometer <= 3 ->
  Forall (fun t => 0 <= t * 100 <= 65535) [t0; t1; t2; t3; t4; t5] ->
  Forall (fun s => 0 <= s <= 65535) [s0; s1; s2; s3; s4; s5] ->
  set_speed_graph thermometer fan [t0; t1; t2; t3; t4; t5]
                  [s0; s1; s2; s3; s4; s5] w
  = (Ok tt,
     after (ClearEnqueuedReports
              :: exchange
                   (padded ([0x25; fan; thermometer]
                              ++ concat (map (fun t => big_endian_pair (t * 100))
                                             [t0; t1; t2; t3; t4; t5])
                              ++ concat (map big_endian_pair
                                             [s0; s1; s2; s3; s4; s5]))))
           [] 1 w).
Proof.
  intros Hfan Hth Ht Hs.
  repeat (apply Forall_cons in Ht as [? Ht]).
  repeat (apply Forall_cons in Hs as [? Hs]).
  repeat match goal with
         | H : 0 <= ?x <= 65535 |- _ =>
             pose proof (byte_pair_range x H); revert H
         end.
  intros. apply from_start. unfold set_speed_graph. run_checks.
  cbn [seq set_speed_graph_fill]. steps_u16. reflexivity.
Qed.

Ltac six_items l :=
  destruct l as [|? [|? [|? [|? [|? [|? [|? ?]]]]]]]; try discriminate.

Lemma set_speed_graph_run_lists thermometer fan temps speeds w :
  0 <= fan <= 6 -> 0 <= thermometer <= 3 ->
  List.length temps = 6%nat -> List.length speeds = 6%nat ->
  Forall (fun t => 0 <= t * 100 <= 65535) temps ->
  Forall (fun s => 0 <= s <= 65535) speeds ->
  set_speed_graph thermometer fan temps speeds w
  = (Ok tt,
     after (ClearEnqueuedReports
              :: exchange
                   (padded ([0x25; fan; thermometer]
                              ++ concat (map (fun t => big_endian_pair (t * 100))
                                             temps)
                              ++ concat (map big_endian_pair speeds))))
           [] 1 w).
Proof.
  intros Hfan Hth Hlt Hls Ht Hs. six_items temps. six_items speeds.
  by apply set_speed_graph_run.
Qed.

(** X3: for a fan in [0,6], a thermometer in [0,3], six temperatures whose
    hundredfold fits 16 bits and six speeds that fit 16 bits,
    [set_speed_graph] clears the enqueued reports, writes one 64-byte frame
    and reads one response; the frame is 0x25, fan, thermometer, the
    temperatures times 100 as big-endian pairs from byte 3, the speeds as
    big-endian pairs from byte 15, and zeros. *)
Theorem set_speed_graph_frame :
  forall thermometer fan temps speeds w,
    0 <= fan <= 6 -> 0 <= thermometer <= 3 ->
    List.length temps = 6%nat -> List.length speeds = 6%nat ->
    Forall (fun t => 0 <= t * 100 <= 65535) temps ->
    Forall (fun s => 0 <= s <= 65535) speeds ->
    set_speed_graph thermometer fan temps speeds w
    = (Ok tt,
       after (ClearEnqueuedReports
                :: exchange
                     (padded ([0x25; fan; thermometer]
                                ++ concat (map (fun t =>
                                                  big_endian_pair (t * 100))
                                               temps)
                                ++ concat (map big_endian_pair speeds))))
             [] 1 w).
Proof. apply set_speed_graph_run_lists. Qed.

Lemma set_speed_graph_frame_witness :
  set_speed_graph 1 2 [25; 35; 45; 55; 65; 75] [600; 900; 1200; 1500; 1800; 2100]
                  idle
  = (Ok tt,
     after (ClearEnqueuedReports
              :: exchange
                   (padded ([0x25; 2; 1]
                              ++ concat (map (fun t => big_endian_pair (t * 100))
                                             [25; 35; 45; 55; 65; 75])
                              ++ concat (map big_endian_pair
                                             [600; 900; 1200; 1500; 1800; 2100]))))
           [] 1 idle).
Proof.
  apply (set_speed_graph_frame 1 2 [25; 35; 45; 55; 65; 75]
           [600; 900; 1200; 1500; 1800; 2100] idle);
    first [lia | reflexivity | repeat constructor; lia].
Defined.

(** The next conversion to a byte pair either fits, and the run goes on, or
    raises and ends the run. *)
Ltac u16_or_raise :=
  match goal with
  | |- context [to_bytes ?x] =>
      let Hin := fresh "Hin" in
      let Hout := fresh "Hout" in
      destruct (decide (0 <= x <= 65535)) as [Hin|Hout];
      [ pose proof (byte_pair_range x Hin); rewrite (to_bytes_ok x Hin); steps
      | unfold to_bytes;
        (case_bool_decide; [|rewrite bool_decide_eq_true_2 by lia]);
        steps; eexists; reflexivity ]
  end.

(** X4: when the indices and lengths pass the checks of [set_speed_graph]
    but some temperature times 100, or some speed, does not fit 16 unsigned
    bits, the call raises OverflowError after creating its buffer and before
    any call on the transport. *)
Theorem set_speed_graph_overflow :
  forall thermometer fan temps speeds w,
    0 <= fan <= 6 -> 0 <= thermometer <= 3 ->
    List.length temps = 6%nat -> List.length speeds = 6%nat ->
    Exists (fun t => t * 100 < 0 \/ 65535 < t * 100) temps
    \/ Exists (fun s => s < 0 \/ 65535 < s) speeds ->
    overflowed (set_speed_graph thermometer fan temps speeds w) w.
Proof.
  intros thermometer fan temps speeds w Hfan Hth Hlt Hls Hbad.
  six_items temps. six_items speeds.
  repeat rewrite Exists_cons in Hbad. rewrite !Exists_nil in Hbad.
  unfold overflowed.
  replace (set_speed_graph thermometer fan [z; z0; z1; z2; z3; z4]
             [z5; z6; z7; z8; z9; z10] w)
    with (set_speed_graph thermometer fan [z; z0; z1; z2; z3; z4]
            [z5; z6; z7; z8; z9; z10] (after [] [] 0 w))
    by (by rewrite after_nothing).
  unfold set_speed_graph. run_checks. cbn [seq set_speed_graph_fill]. steps.
  do 12 u16_or_raise.
  exfalso. lia.
Qed.

Lemma set_speed_graph_overflow_witness :
  overflowed (set_speed_graph 0 0 [20; 30; 40; 60; 80; 700] example_speeds idle)
             idle.
Proof.
  apply (set_speed_graph_overflow 0 0 [20; 30; 40; 60; 80; 700]
           example_speeds idle); try lia; try reflexivity.
  left. repeat (first [apply Exists_cons_hd; lia | apply Exists_cons_tl]).
Defined.

Lemma map_replicate {A B : Type} (f : A -> B) n x :
  map f (replicate n x) = replicate n (f x).
Proof. induction n as [|n IH]; simpl; [done|by rewrite IH]. Qed.

(** X5: a profile of one to six (temperature, duty) points is extended to
    six by repeating its last point; [set_speed_profile] then writes the
    curve frame of that plateau for thermometer 0, with every duty
    multiplied by 25 as its speed. *)
Theorem set_speed_profile_plateau :
  forall channel points final w,
    let profile := points ++ [final] in
    let plateau := profile ++ replicate (6 - List.length profile) final in
    (List.length profile <= 6)%nat ->
    0 <= channel <= 6 ->
    Forall (fun p => 0 <= fst p * 100 <= 65535 /\ 0 <= snd p * 25 <= 65535)
           profile ->
    List.length plateau = 6%nat
    /\ set_speed_profile channel profile w
       = (Ok tt,
          after (ClearEnqueuedReports
                   :: exchange
                        (padded ([0x25; channel; 0]
                                   ++ concat (map (fun p =>
                                                     big_endian_pair
                                                       (fst p * 100))
                                                  plateau)
                                   ++ concat (map (fun p =>
                                                     big_endian_pair
                                                       (snd p * 25))
                                                  plateau))))
                [] 1 w).
Proof.
  intros channel points final w profile plateau Hlen Hch Hfit.
  assert (Hsix : List.length plateau = 6%nat).
  { unfold plateau. rewrite length_app, length_replicate. lia. }
  split; [done|].
  unfold set_speed_profile. fold profile.
  assert (Hlast : forall {B : Type} (f : Z * Z -> B),
             last (map f profile) = Some (f final)).
  { intros B f. unfold profile. rewrite map_app. simpl. apply last_snoc. }
  rewrite !Hlast, !length_map.
  replace (map fst profile ++ replicate (6 - List.length profile) (fst final))
    with (map fst plateau)
    by (unfold plateau; by rewrite map_app, map_replicate).
  replace (map (fun p => snd p * 25) profile
             ++ replicate (6 - List.length profile) (snd final * 25))
    with (map (fun p => snd p * 25) plateau)
    by (unfold plateau; by rewrite map_app, (map_replicate (fun p => snd p * 25))).
  assert (Hall : Forall (fun p => 0 <= fst p * 100 <= 65535
                                  /\ 0 <= snd p * 25 <= 65535) plateau).
  { unfold plateau. apply Forall_app. split; [done|].
    apply Forall_replicate. unfold profile in Hfit.
    apply Forall_app in Hfit as [_ Hfinal].
    by inversion_clear Hfinal. }
  rewrite set_speed_graph_run_lists; try lia; rewrite ?length_map; try done.
  - by rewrite !map_map.
  - apply Forall_map. eapply Forall_impl; [exact Hall|]. simpl. tauto.
  - apply Forall_map. eapply Forall_impl; [exact Hall|]. simpl. tauto.
Qed.

Lemma set_speed_profile_plateau_witness :
  List.length ([(20, 30); (50, 60); (70, 100)]
                 ++ replicate 3 ((70, 100) : Z * Z)) = 6%nat
  /\ set_speed_profile 3 [(20, 30); (50, 60); (70, 100)] idle
     = (Ok tt,
        after (ClearEnqueuedReports
                 :: exchange
                      (padded ([0x25; 3; 0]
                                 ++ concat (map big_endian_pair
                                              [2000; 5000; 7000;
                                               7000; 7000; 7000])
                                 ++ concat (map big_endian_pair
                                              [750; 1500; 2500;
                                               2500; 2500; 2500]))))
              [] 1 idle).
Proof.
  apply (set_speed_profile_plateau 3 [(20, 30); (50, 60)] (70, 100) idle);
    first [simpl; lia | repeat constructor; simpl; lia].
Defined.

(** X6: [set_speed_graph_example] programs the example curve on the six
    fans 0 to 5 in order, thermometer 0: six times a clear of the enqueued
    reports, the write of the fan's curve frame and one read. *)
Theorem set_speed_graph_example_sequence :
  forall w,
    set_speed_graph_example w
    = (Ok tt,
       after (flat_map
                (fun fan =>
                   ClearEnqueuedReports
                     :: exchange
                          (padded ([0x25; fan; 0]
                                     ++ concat (map (fun t =>
                                                       big_endian_pair (t * 100))
                                                    example_temps)
                                     ++ concat (map big_endian_pair
                                                    example_speeds))))
                [0; 1; 2; 3; 4; 5])
             [] 6 w).
Proof. intros w. vm_compute. reflexivity. Qed.

(** ** Frames of the operations that do not clear *)

(** X7: for a channel in [0,1] and a temperature in [0,65535],
    [notify_led_temperature] writes the 64-byte frame 0x36, channel, 0, the
    temperature as a big-endian pair (not scaled), zeros, and reads one
    response. *)
Theorem notify_led_temperature_frame :
  forall channel temperature w,
    0 <= channel <= 1 -> 0 <= temperature <= 65535 ->
    notify_led_temperature channel temperature w
    = (Ok tt,
       after (exchange (padded ([0x36; channel; 0]
                                  ++ big_endian_pair temperature)))
             [] 1 w).
Proof.
  intros channel temperature w Hc Ht.
  destruct (byte_pair_range _ Ht) as [Hhi Hlo].
  apply from_start. unfold notify_led_temperature. run_checks.
  steps_u16. reflexivity.
Qed.

Lemma notify_led_temperature_frame_witness :
  notify_led_temperature 1 300 idle
  = (Ok tt,
     after (exchange (padded ([0x36; 1; 0] ++ big_endian_pair 300))) [] 1 idle).
Proof. apply (notify_led_temperature_frame 1 300 idle); lia. Defined.

(** X8: for a fan in [0,5] and a mode in [0,2], [set_fan_mode] writes the
    64-byte frame 0x28, 0x02, fan, mode, zeros, and reads one response. *)
Theorem set_fan_mode_frame :
  forall fan mode w,
    0 <= fan <= 5 -> 0 <= mode <= 2 ->
    set_fan_mode fan mode w
    = (Ok tt, after (exchange (padded [0x28; 0x02; fan; mode])) [] 1 w).
Proof.
  intros fan mode w Hf Hm. apply from_start. unfold set_fan_mode. run_checks.
  steps. reflexivity.
Qed.

Lemma set_fan_mode_frame_witness :
  set_fan_mode 4 2 idle
  = (Ok tt, after (exchange (padded [0x28; 0x02; 4; 2])) [] 1 idle).
Proof. apply (set_fan_mode_frame 4 2 idle); lia. Defined.

(** ** Queries *)

(** X9: for a fan index that is a byte, [get_fan_speed_rpm] clears the
    enqueued reports, writes the frame 0x21, index, zeros, reads one
    response and returns bytes 1-2 of it as a big-endian number; the index
    is not checked against the six fans, and a response too short to hold
    the two bytes gives a number all the same (0 for an empty one). *)
Theorem get_fan_speed_rpm_decodes :
  forall fanIndex w,
    0 <= fanIndex <= 255 ->
    let frame := padded [0x21; fanIndex] in
    let report :=
      take _READ_LENGTH
           (respond w (Write frame :: ClearEnqueuedReports :: calls w)) in
    get_fan_speed_rpm fanIndex w
    = (Ok (from_bytes (slice report 1 3)),
       after (ClearEnqueuedReports :: exchange frame) [] 1 w)
    /\ (forall r0 hi lo rest,
          report = r0 :: hi :: lo :: rest ->
          from_bytes (slice report 1 3) = hi * 256 + lo)
    /\ (forall r0 hi,
          report = [r0; hi] -> from_bytes (slice report 1 3) = hi)
    /\ (report = [] -> from_bytes (slice report 1 3) = 0).
Proof.
  intros fanIndex w Hi frame report. repeat split.
  - apply from_start. unfold get_fan_speed_rpm. steps. reflexivity.
  - intros r0 hi lo rest ->. reflexivity.
  - intros r0 hi ->. reflexivity.
  - intros ->. reflexivity.
Qed.

Lemma get_fan_speed_rpm_decodes_witness :
  get_fan_speed_rpm 3 (steady [0; 4; 176; 0; 0; 0; 0; 0; 0; 0; 0; 0; 0; 0; 0; 0])
  = (Ok 1200,
     after (ClearEnqueuedReports :: exchange (padded [0x21; 3])) [] 1
           (steady [0; 4; 176; 0; 0; 0; 0; 0; 0; 0; 0; 0; 0; 0; 0; 0])).
Proof.
  apply (proj1 (get_fan_speed_rpm_decodes 3
                  (steady [0; 4; 176; 0; 0; 0; 0; 0; 0; 0; 0; 0; 0; 0; 0; 0])
                  ltac:(lia))).
Defined.

(** X10: for a fan index that is a byte, [get_fan_speed_pwm] clears the
    enqueued reports, writes the frame 0x22, index, zeros and reads one
    response; it returns byte 1 of the response, and raises IndexError,
    after those three calls, when the response has fewer than two bytes. *)
Theorem get_fan_speed_pwm_decodes :
  forall fanIndex w,
    0 <= fanIndex <= 255 ->
    let frame := padded [0x22; fanIndex] in
    let report :=
      take _READ_LENGTH
           (respond w (Write frame :: ClearEnqueuedReports :: calls w)) in
    get_fan_speed_pwm fanIndex w
    = (match report !! 1%nat with
       | Some duty => Ok duty
       | None => Raise (IndexError "index out of range")
       end,
       after (ClearEnqueuedReports :: exchange frame) [] 1 w).
Proof.
  intros fanIndex w Hi frame report.
  apply from_start. unfold get_fan_speed_pwm. steps.
  unfold getitem.
  change (take _READ_LENGTH _) with report.
  by destruct (report !! 1%nat).
Qed.

Lemma get_fan_speed_pwm_decodes_witness :
  get_fan_speed_pwm 0 (steady [0; 40])
  = (Ok 40,
     after (ClearEnqueuedReports :: exchange (padded [0x22; 0])) [] 1
           (steady [0; 40]))
  /\ get_fan_speed_pwm 0 (steady [0])
     = (Raise (IndexError "index out of range"),
        after (ClearEnqueuedReports :: exchange (padded [0x22; 0])) [] 1
              (steady [0])).
Proof.
  split.
  - apply (get_fan_speed_pwm_decodes 0 (steady [0; 40])). lia.
  - apply (get_fan_speed_pwm_decodes 0 (steady [0])). lia.
Defined.

(** X11: [get_temperature] rejects a thermometer index outside [0,3] with
    ValueError before any call on the transport; for an index in [0,3] it
    clears the enqueued reports, writes the frame 0x11, index, zeros, reads
    one response and returns bytes 1-2 of it, as a big-endian number,
    divided by 100. *)
Theorem get_temperature_decodes :
  forall index w,
    (index < 0 \/ index > 3 -> rejected (get_temperature index w) w)
    /\ (0 <= index <= 3 ->
        let frame := padded [0x11; index] in
        let report :=
          take _READ_LENGTH
               (respond w (Write frame :: ClearEnqueuedReports :: calls w)) in
        get_temperature index w
        = (Ok (truediv (from_bytes (slice report 1 3)) 100),
           after (ClearEnqueuedReports :: exchange frame) [] 1 w)).
Proof.
  intros index w. split.
  - intros Hbad. unfold get_temperature. reject.
  - intros Hi frame report. apply from_start. unfold get_temperature.
    run_checks. steps. reflexivity.
Qed.

Lemma get_temperature_decodes_witness :
  rejected (get_temperature 4 idle) idle
  /\ get_temperature 2 (steady [0; 10; 40; 0; 0; 0; 0; 0; 0; 0; 0; 0; 0; 0; 0; 0])
     = (Ok (truediv 2600 100),
        after (ClearEnqueuedReports :: exchange (padded [0x11; 2])) [] 1
              (steady [0; 10; 40; 0; 0; 0; 0; 0; 0; 0; 0; 0; 0; 0; 0; 0])).
Proof.
  split.
  - apply (proj1 (get_temperature_decodes 4 idle)). lia.
  - apply (proj2 (get_temperature_decodes 2
                    (steady [0; 10; 40; 0; 0; 0; 0; 0; 0; 0; 0; 0; 0; 0; 0; 0]))).
    lia.
Defined.

(** X12: [get_voltage] rejects a rail index outside [0,2] with ValueError
    before any call on the transport; for an index in [0,2] it clears the
    enqueued reports, writes the frame 0x12, index, zeros, reads one
    response and returns bytes 1-2 of it, as a big-endian number, divided
    by 1000.  A whole number of volts up to 65 comes back exactly. *)
Theorem get_voltage_decodes :
  forall sensor_index w,
    (sensor_index < 0 \/ sensor_index > 2 ->
     rejected (get_voltage sensor_index w) w)
    /\ (0 <= sensor_index <= 2 ->
        let frame := padded [0x12; sensor_index] in
        let report :=
          take _READ_LENGTH
               (respond w (Write frame :: ClearEnqueuedReports :: calls w)) in
        get_voltage sensor_index w
        = (Ok (truediv (from_bytes (slice report 1 3)) 1000),
           after (ClearEnqueuedReports :: exchange frame) [] 1 w))
    /\ (forall volts rail,
          0 <= volts <= 65 -> 0 <= rail <= 2 ->
          fst (get_voltage rail
                 (steady ([0] ++ big_endian_pair (volts * 1000)
                              ++ replicate 13 0)))
          = Ok (float_of_int volts)).
Proof.
  intros sensor_index w. repeat apply conj.
  - intros Hbad. unfold get_voltage. reject.
  - intros Hi frame report. apply from_start. unfold get_voltage.
    run_checks. steps. reflexivity.
  - intros volts rail Hv Hr.
    replace (steady _) with
      (after [] [] 0 (steady ([0] ++ big_endian_pair (volts * 1000)
                                  ++ replicate 13 0)))
      by apply after_nothing.
    unfold get_voltage. run_checks. steps. cbn [fst]. f_equal.
    change (slice _ 1 3) with (big_endian_pair (volts * 1000)).
    rewrite from_bytes_pair by lia.
    assert (Hall : Forall (fun v => truediv (v * 1000) 1000 = float_of_int v)
                          (List.map Z.of_nat (seq 0 66))).
    { vm_compute. repeat constructor. }
    rewrite List.Forall_forall in Hall. apply Hall.
    apply in_map_iff. exists (Z.to_nat volts). split; [lia|].
    apply in_seq. lia.
Qed.

Lemma get_voltage_decodes_witness :
  rejected (get_voltage 3 idle) idle
  /\ fst (get_voltage 0 (steady ([0] ++ big_endian_pair (12 * 1000)
                                    ++ replicate 13 0)))
     = Ok (float_of_int 12).
Proof.
  split.
  - apply (proj1 (get_voltage_decodes 3 idle)). lia.
  - apply (proj2 (proj2 (get_voltage_decodes 0 idle)) 12 0); lia.
Defined.

(** X13: [get_power_status] never raises: whatever the device answers it
    queries the rails 0, 1 and 2 in order, each with a clear, a write of
    the frame 0x12, rail and a read, and returns three properties in volts
    named for the 12V, 5V and 3.3V rails, in that order. *)
Theorem get_power_status_three_rails :
  forall w,
    exists v12 v5 v33,
      get_power_status w
      = (Ok [("12V  rail", PyFloat v12, "V");
             ("5V   rail", PyFloat v5, "V");
             ("3.3V rail", PyFloat v33, "V")],
         after (flat_map
                  (fun rail =>
                     ClearEnqueuedReports :: exchange (padded [0x12; rail]))
                  [0; 1; 2])
               [] 3 w).
Proof.
  intros w. eexists _, _, _. apply from_start.
  unfold get_power_status, get_voltage. run_checks. steps. reflexivity.
Qed.

Ltac from_report w frame :=
  repeat match goal with
         | |- context [take _READ_LENGTH (respond w ?log)] =>
             progress change log
               with (Write frame :: ClearEnqueuedReports :: calls w)
         end;
  generalize (take _READ_LENGTH
                (respond w (Write frame :: ClearEnqueuedReports :: calls w)));
  intros report.

(** X14: the three version queries each clear the enqueued reports, write
    their frame (0x02, 0x03 or 0x06, then zeros) and read one response.  The
    firmware version is bytes 1, 2, 3 of the response in decimal joined by
    dots (0x00 0x04 0xAD gives 0.4.173), the software id bytes 1 to 4, the
    bootloader version bytes 1 and 2; a response too short to hold those
    bytes raises IndexError after the three calls. *)
Theorem version_strings :
  forall w,
    (let frame := padded [0x02] in
     let report :=
       take _READ_LENGTH
            (respond w (Write frame :: ClearEnqueuedReports :: calls w)) in
     get_firmware_version w
     = (match report with
        | _ :: x :: y :: z :: _ =>
            Ok (fmt_d x +:+ "." +:+ fmt_d y +:+ "." +:+ fmt_d z)
        | _ => Raise (IndexError "index out of range")
        end,
        after (ClearEnqueuedReports :: exchange frame) [] 1 w))
    /\ (let frame := padded [0x03] in
        let report :=
          take _READ_LENGTH
               (respond w (Write frame :: ClearEnqueuedReports :: calls w)) in
        get_software_id w
        = (match report with
           | _ :: a :: b :: c :: d :: _ =>
               Ok (fmt_d a +:+ "." +:+ fmt_d b +:+ "." +:+ fmt_d c
                     +:+ "." +:+ fmt_d d)
           | _ => Raise (IndexError "index out of range")
           end,
           after (ClearEnqueuedReports :: exchange frame) [] 1 w))
    /\ (let frame := padded [0x06] in
        let report :=
          take _READ_LENGTH
               (respond w (Write frame :: ClearEnqueuedReports :: calls w)) in
        get_bootloader_version w
        = (match report with
           | _ :: x :: y :: _ => Ok (fmt_d x +:+ "." +:+ fmt_d y)
           | _ => Raise (IndexError "index out of range")
           end,
           after (ClearEnqueuedReports :: exchange frame) [] 1 w))
    /\ fst (get_firmware_version
              (steady [0x00; 0x00; 0x04; 0xAD; 0; 0; 0; 0; 0; 0; 0; 0; 0; 0; 0; 0]))
       = Ok "0.4.173".
Proof.
  intros w. repeat apply conj.
  - apply from_start. unfold get_firmware_version. steps.
    from_report w (padded [0x02]).
    destruct report as [|r0 [|x [|y [|z rest]]]]; reflexivity.
  - apply from_start. unfold get_software_id. steps.
    from_report w (padded [0x03]).
    destruct report as [|r0 [|a [|b [|c [|d rest]]]]]; reflexivity.
  - apply from_start. unfold get_bootloader_version. steps.
    from_report w (padded [0x06]).
    destruct report as [|r0 [|x [|y rest]]]; reflexivity.
  - vm_compute. reflexivity.
Qed.

(** X15: [get_led_status] (for a channel that is a byte) and
    [get_port_led_count] clear the enqueued reports, write their frame
    (0x30, channel, zeros; 0x3a, zeros), read one response and return
    nothing, whatever the response is. *)
Theorem led_queries_ignore_response :
  (forall channel w,
      0 <= channel <= 255 ->
      get_led_status channel w
      = (Ok tt,
         after (ClearEnqueuedReports :: exchange (padded [0x30; channel]))
               [] 1 w))
  /\ (forall w,
        get_port_led_count w
        = (Ok tt,
           after (ClearEnqueuedReports :: exchange (padded [0x3a])) [] 1 w)).
Proof.
  split.
  - intros channel w Hc. apply from_start. unfold get_led_status.
    steps. reflexivity.
  - intros w. apply from_start. unfold get_port_led_count. steps. reflexivity.
Qed.

Lemma led_queries_ignore_response_witness :
  get_led_status 1 idle
  = (Ok tt,
     after (ClearEnqueuedReports :: exchange (padded [0x30; 1])) [] 1 idle).
Proof. apply (proj1 led_queries_ignore_response 1 idle). lia. Defined.

(** ** Status queries on the transport *)

Lemma after_after c1 m1 n1 c2 m2 n2 w :
  after c2 m2 n2 (after c1 m1 n1 w) = after (c1 ++ c2) (m1 ++ m2) (n2 + n1) w.
Proof.
  unfold after; simpl. by rewrite !rev_app_distr, <- !app_assoc, Nat.add_assoc.
Qed.

Lemma full_reports_after cs msgs n w :
  full_reports w -> full_reports (after cs msgs n w).
Proof. intros Hfull log. apply Hfull. Qed.

Lemma get_fan_speed_rpm_query (fanIndex : Z) cs msgs n w :
  0 <= fanIndex < 256 ->
  exists speed,
    get_fan_speed_rpm fanIndex (after cs msgs n w)
    = (Ok speed, after (cs ++ query 0x21 fanIndex) msgs (S n) w).
Proof.
  intros Hi. eexists. unfold get_fan_speed_rpm. steps.
  unfold query, exchange. rewrite <- !app_assoc. reflexivity.
Qed.

Lemma get_temperature_query (index : Z) cs msgs n w :
  0 <= index <= 3 ->
  exists temp,
    get_temperature index (after cs msgs n w)
    = (Ok temp, after (cs ++ query 0x11 index) msgs (S n) w).
Proof.
  intros Hi. eexists. unfold get_temperature. run_checks. steps.
  unfold query, exchange. rewrite <- !app_assoc. reflexivity.
Qed.

Lemma get_fan_status_loop_trace range :
  forall report acc cs msgs n w,
    Forall (fun i => (1 <= i < List.length report)%nat /\ (i <= 256)%nat) range ->
    exists properties,
      List.length properties
      = (List.length range + List.length (connected_fans report range))%nat
      /\ get_fan_status_loop report range acc (after cs msgs n w)
         = (Ok (acc ++ properties),
            after (cs ++ flat_map (fun i => query 0x21 (Z.of_nat i - 1))
                                  (connected_fans report range))
                  msgs
                  (List.length (connected_fans report range) + n) w).
Proof.
  induction range as [|i range IH]; intros report acc cs msgs n w Hrange.
  - exists []. split; [done|]. simpl. by rewrite !app_nil_r.
  - apply Forall_cons in Hrange as [[Hi Hb] Hrange].
    destruct (lookup_lt_is_Some_2 report i) as [b Hlook]; [lia|].
    simpl get_fan_status_loop. rewrite run_bind.
    rewrite (getitem_ok _ _ _ Hlook), run_ret. cbv beta iota zeta.
    rewrite run_bind. unfold connected_fans. simpl List.filter.
    rewrite (list_lookup_total_correct _ _ _ Hlook).
    fold (connected_fans report range).
    destruct (bool_decide (b = 1 \/ b = 2)) eqn:Hconn.
    + rewrite run_bind.
      destruct (get_fan_speed_rpm_query (Z.of_nat i - 1) cs msgs n w)
        as (speed & ->); [lia|].
      rewrite run_ret. cbv beta iota.
      edestruct IH as (properties & Hlen & ->); [exact Hrange|].
      eexists (_ :: _ :: properties). split; [simpl; lia|].
      simpl flat_map. simpl List.length.
      rewrite <- !app_assoc, Nat.add_succ_r. reflexivity.
    + rewrite run_ret. cbv beta iota.
      edestruct IH as (properties & Hlen & ->); [exact Hrange|].
      eexists (_ :: properties). split; [simpl; lia|].
      rewrite <- !app_assoc. reflexivity.
Qed.

Lemma get_thermometer_status_loop_trace range :
  forall report acc cs msgs n w,
    Forall (fun i => (1 <= i < List.length report)%nat /\ (i <= 4)%nat) range ->
    exists properties,
      List.length properties
      = (List.length range
         + List.length (connected_thermometers report range))%nat
      /\ get_thermometer_status_loop report range acc (after cs msgs n w)
         = (Ok (acc ++ properties),
            after (cs ++ flat_map (fun i => query 0x11 (Z.of_nat i - 1))
                                  (connected_thermometers report range))
                  msgs
                  (List.length (connected_thermometers report range) + n) w).
Proof.
  induction range as [|i range IH]; intros report acc cs msgs n w Hrange.
  - exists []. split; [done|]. simpl. by rewrite !app_nil_r.
  - apply Forall_cons in Hrange as [[Hi Hb] Hrange].
    destruct (lookup_lt_is_Some_2 report i) as [b Hlook]; [lia|].
    simpl get_thermometer_status_loop. rewrite run_bind.
    rewrite (getitem_ok _ _ _ Hlook), run_ret. cbv beta iota zeta.
    rewrite run_bind. unfold connected_thermometers. simpl List.filter.
    rewrite (list_lookup_total_correct _ _ _ Hlook).
    fold (connected_thermometers report range).
    destruct (bool_decide (b = 1)) eqn:Hconn.
    + rewrite run_bind.
      destruct (get_temperature_query (Z.of_nat i - 1) cs msgs n w)
        as (temp & ->); [lia|].
      rewrite run_ret. cbv beta iota.
      edestruct IH as (properties & Hlen & ->); [exact Hrange|].
      eexists (_ :: _ :: properties). split; [simpl; lia|].
      simpl flat_map. simpl List.length.
      rewrite <- !app_assoc, Nat.add_succ_r. reflexivity.
    + rewrite run_ret. cbv beta iota.
      edestruct IH as (properties & Hlen & ->); [exact Hrange|].
      eexists (_ :: properties). split; [simpl; lia|].
      rewrite <- !app_assoc. reflexivity.
Qed.

Lemma get_fan_status_trace w :
  full_reports w ->
  let report :=
    take _READ_LENGTH
         (respond w (Write (padded [0x20]) :: ClearEnqueuedReports :: calls w))
  in
  let connected := connected_fans report [1; 2; 3; 4; 5; 6]%nat in
  exists properties,
    List.length properties = (6 + List.length connected)%nat
    /\ get_fan_status w
       = (Ok properties,
          after (ClearEnqueuedReports :: exchange (padded [0x20])
                   ++ flat_map (fun i => query 0x21 (Z.of_nat i - 1)) connected)
                [] (S (List.length connected)) w).
Proof.
  intros Hfull report connected.
  replace (get_fan_status w) with (get_fan_status (after [] [] 0 w))
    by (by rewrite after_nothing).
  unfold get_fan_status. steps.
  match goal with
  | |- context [get_fan_status_loop ?r _ _ (after ?cs ?ms ?n _)] =>
      change r with report;
      destruct (get_fan_status_loop_trace [1; 2; 3; 4; 5; 6]%nat
                  report [] cs ms n w)
        as (properties & Hlen & Hrun)
  end.
  - pose proof (full_report_length w
                  (Write (padded [0x20]) :: ClearEnqueuedReports :: calls w)
                  Hfull) as Hlen.
    fold report in Hlen. rewrite Hlen.
    repeat constructor; lia.
  - exists properties. split; [exact Hlen|].
    change (seq 1 6) with [1; 2; 3; 4; 5; 6]%nat. rewrite Hrun.
    fold connected. rewrite Nat.add_1_r. reflexivity.
Qed.

Lemma get_thermometer_status_trace w :
  full_reports w ->
  let report :=
    take _READ_LENGTH
         (respond w (Write (padded [0x10]) :: ClearEnqueuedReports :: calls w))
  in
  let connected := connected_thermometers report [1; 2; 3; 4]%nat in
  exists properties,
    List.length properties = (4 + List.length connected)%nat
    /\ get_thermometer_status w
       = (Ok properties,
          after (ClearEnqueuedReports :: exchange (padded [0x10])
                   ++ flat_map (fun i => query 0x11 (Z.of_nat i - 1)) connected)
                [] (S (List.length connected)) w).
Proof.
  intros Hfull report connected.
  replace (get_thermometer_status w)
    with (get_thermometer_status (after [] [] 0 w))
    by (by rewrite after_nothing).
  unfold get_thermometer_status. steps.
  match goal with
  | |- context [get_thermometer_status_loop ?r _ _ (after ?cs ?ms ?n _)] =>
      change r with report;
      destruct (get_thermometer_status_loop_trace [1; 2; 3; 4]%nat
                  report [] cs ms n w)
        as (properties & Hlen & Hrun)
  end.
  - pose proof (full_report_length w
                  (Write (padded [0x10]) :: ClearEnqueuedReports :: calls w)
                  Hfull) as Hlen.
    fold report in Hlen. rewrite Hlen.
    repeat constructor; lia.
  - exists properties. split; [exact Hlen|].
    change (seq 1 4) with [1; 2; 3; 4]%nat. rewrite Hrun.
    fold connected. rewrite Nat.add_1_r. reflexivity.
Qed.

(** X16: when the device always has a full report ready, [get_fan_status]
    makes the configuration query 0x20 and then one speed query 0x21 for
    each fan slot whose status byte is 1 or 2, in slot order and with the
    fan index slot - 1, and no other call; it returns six status properties
    plus one speed property per connected fan. *)
Theorem get_fan_status_queries :
  forall w,
    full_reports w ->
    let report :=
      take _READ_LENGTH
           (respond w
              (Write (padded [0x20]) :: ClearEnqueuedReports :: calls w)) in
    let connected := connected_fans report [1; 2; 3; 4; 5; 6]%nat in
    exists properties,
      List.length properties = (6 + List.length connected)%nat
      /\ get_fan_status w
         = (Ok properties,
            after (ClearEnqueuedReports :: exchange (padded [0x20])
                     ++ flat_map (fun i => query 0x21 (Z.of_nat i - 1))
                                 connected)
                  [] (S (List.length connected)) w).
Proof. apply get_fan_status_trace. Qed.

Lemma get_fan_status_queries_witness :
  exists properties,
    List.length properties = 9%nat
    /\ get_fan_status (steady mixed_report)
       = (Ok properties,
          after (ClearEnqueuedReports :: exchange (padded [0x20])
                   ++ query 0x21 0 ++ query 0x21 1 ++ query 0x21 2)
                [] 4 (steady mixed_report)).
Proof.
  apply (get_fan_status_queries (steady mixed_report)).
  intros log. simpl. unfold _READ_LENGTH. lia.
Defined.

(** X17: when the device always has a full report ready,
    [get_thermometer_status] makes the configuration query 0x10 and then
    one temperature query 0x11 for each thermometer slot whose status byte
    is 1, in slot order and with the index slot - 1, and no other call; it
    returns four status properties plus one temperature property per
    connected thermometer. *)
Theorem get_thermometer_status_queries :
  forall w,
    full_reports w ->
    let report :=
      take _READ_LENGTH
           (respond w
              (Write (padded [0x10]) :: ClearEnqueuedReports :: calls w)) in
    let connected := connected_thermometers report [1; 2; 3; 4]%nat in
    exists properties,
      List.length properties = (4 + List.length connected)%nat
      /\ get_thermometer_status w
         = (Ok properties,
            after (ClearEnqueuedReports :: exchange (padded [0x10])
                     ++ flat_map (fun i => query 0x11 (Z.of_nat i - 1))
                                 connected)
                  [] (S (List.length connected)) w).
Proof. apply get_thermometer_status_trace. Qed.

Lemma get_thermometer_status_queries_witness :
  exists properties,
    List.length properties = 6%nat
    /\ get_thermometer_status (steady mixed_report)
       = (Ok properties,
          after (ClearEnqueuedReports :: exchange (padded [0x10])
                   ++ query 0x11 0 ++ query 0x11 1)
                [] 3 (steady mixed_report)).
Proof.
  apply (get_thermometer_status_queries (steady mixed_report)).
  intros log. simpl. unfold _READ_LENGTH. lia.
Defined.

Lemma get_power_status_run w :
  exists v12 v5 v33,
    get_power_status w
    = (Ok [("12V  rail", PyFloat v12, "V");
           ("5V   rail", PyFloat v5, "V");
           ("3.3V rail", PyFloat v33, "V")],
       after (query 0x12 0 ++ query 0x12 1 ++ query 0x12 2) [] 3 w).
Proof.
  eexists _, _, _. apply from_start.
  unfold get_power_status, get_voltage. run_checks. steps. reflexivity.
Qed.

Lemma connected_fans_at_most report range :
  (List.length (connected_fans report range) <= List.length range)%nat.
Proof. apply filter_length_le. Qed.

Lemma connected_thermometers_at_most report range :
  (List.length (connected_thermometers report range) <= List.length range)%nat.
Proof. apply filter_length_le. Qed.

(** X18: when the device always has a full report ready, [get_status]
    returns normally.  It first queries the LED status of channels 0 and 1
    (frames 0x30, channel) and drops the answers; its result is the fan
    properties (as [get_fan_status] gives them next: 6 to 12), then the
    thermometer properties (as [get_thermometer_status] gives them after
    that: 4 to 8), then the three voltage rails. *)
Theorem get_status_order :
  forall w,
    full_reports w ->
    let w1 := after (query 0x30 0 ++ query 0x30 1) [] 2 w in
    exists fans thermometers v12 v5 v33 rest n,
      get_status w
      = (Ok (fans ++ thermometers
               ++ [("12V  rail", PyFloat v12, "V");
                   ("5V   rail", PyFloat v5, "V");
                   ("3.3V rail", PyFloat v33, "V")]),
         after (query 0x30 0 ++ query 0x30 1 ++ rest) [] n w)
      /\ fst (get_fan_status w1) = Ok fans
      /\ fst (get_thermometer_status (snd (get_fan_status w1)))
         = Ok thermometers
      /\ (6 <= List.length fans <= 12)%nat
      /\ (4 <= List.length thermometers <= 8)%nat.
Proof.
  intros w Hfull w1.
  destruct (get_fan_status_trace w1 (full_reports_after _ _ _ _ Hfull))
    as (fans & Hfans & Hrunf).
  cbv zeta in Hrunf, Hfans.
  match type of Hrunf with
  | _ = (_, ?w2) =>
      destruct (get_thermometer_status_trace w2
                  (full_reports_after _ _ _ _
                     (full_reports_after _ _ _ _ Hfull)))
        as (thermometers & Htherm & Hrunt)
  end.
  cbv zeta in Hrunt, Htherm.
  match type of Hrunt with
  | _ = (_, ?w3) =>
      destruct (get_power_status_run w3) as (v12 & v5 & v33 & Hrunp)
  end.
  exists fans, thermometers, v12, v5, v33. eexists _, _.
  split; [|split; [|split; [|split]]].
  - replace (get_status w) with (get_status (after [] [] 0 w))
      by (by rewrite after_nothing).
    unfold get_status, get_led_status. steps.
    match goal with
    | |- context [get_fan_status ?w0] => change w0 with w1
    end.
    rewrite Hrunf. cbv beta iota. rewrite run_bind, Hrunt. cbv beta iota.
    rewrite run_bind, Hrunp. cbv beta iota. rewrite run_ret.
    unfold w1. rewrite !after_after, <- !app_assoc. reflexivity.
  - by rewrite Hrunf.
  - rewrite Hrunf. cbn [snd]. by rewrite Hrunt.
  - clear Hrunf Hrunt Hrunp. unfold property in *. rewrite Hfans.
    match goal with
    | |- context [connected_fans ?r ?l] =>
        pose proof (connected_fans_at_most r l) as Hle;
        change (List.length l) with 6%nat in Hle
    end.
    lia.
  - clear Hrunf Hrunt Hrunp. unfold property in *. rewrite Htherm.
    match goal with
    | |- context [connected_thermometers ?r ?l] =>
        pose proof (connected_thermometers_at_most r l) as Hle;
        change (List.length l) with 4%nat in Hle
    end.
    lia.
Qed.

Lemma get_status_order_witness :
  exists fans thermometers v12 v5 v33 rest n,
    get_status (steady mixed_report)
    = (Ok (fans ++ thermometers
             ++ [("12V  rail", PyFloat v12, "V");
                 ("5V   rail", PyFloat v5, "V");
                 ("3.3V rail", PyFloat v33, "V")]),
       after (query 0x30 0 ++ query 0x30 1 ++ rest) [] n
             (steady mixed_report))
    /\ fst (get_fan_status
              (after (query 0x30 0 ++ query 0x30 1) [] 2 (steady mixed_report)))
       = Ok fans
    /\ fst (get_thermometer_status
              (snd (get_fan_status
                      (after (query 0x30 0 ++ query 0x30 1) [] 2
                             (steady mixed_report)))))
       = Ok thermometers
    /\ (6 <= List.length fans <= 12)%nat
    /\ (4 <= List.length thermometers <= 8)%nat.
Proof.
  apply (get_status_order (steady mixed_report)).
  intros log. simpl. unfold _READ_LENGTH. lia.
Defined.

(** ** Colour bytes along the LED sequence *)

Lemma group_frame_colours buf fanConfig :
  List.length buf = 64%nat -> colours_ok fanConfig = true ->
  slice (group_frame buf fanConfig) 9 18
  = if _ColourMode.eqb (FanConfig.colourMode fanConfig) _ColourMode.RANDOM
    then slice buf 9 18 else colour_bytes fanConfig.
Proof.
  intros Hlen Hok. unfold group_frame, colours_ok, colour_bytes, slice in *.
  destruct (_ColourMode.eqb _ _).
  - by rewrite !drop_insert_lt by lia.
  - simpl in Hok. apply andb_true_iff in Hok as [Hok Hc3].
    apply andb_true_iff in Hok as [Hc1 Hc2].
    apply rgb_inv in Hc1 as (r1 & g1 & b1 & t1 & -> & _).
    apply rgb_inv in Hc2 as (r2 & g2 & b2 & t2 & -> & _).
    apply rgb_inv in Hc3 as (r3 & g3 & b3 & t3 & -> & _).
    rewrite !drop_insert_ge by lia. rewrite !drop_insert_lt by lia.
    assert (Hdrop : List.length (drop 9 buf) = 55%nat)
      by (rewrite length_drop; lia).
    destruct (drop 9 buf) as [|x0 [|x1 [|x2 [|x3 [|x4 [|x5 [|x6 [|x7 [|x8 tl]]]]]]]]];
      try discriminate.
    reflexivity.
Qed.

Lemma group_frames_colours configs :
  forall buf,
    List.length buf = 64%nat -> forallb colours_ok configs = true ->
    map (fun frame => slice frame 9 18) (group_frames buf configs)
    = carried (slice buf 9 18) configs.
Proof.
  induction configs as [|fanConfig rest IH]; intros buf Hlen Hok; [done|].
  simpl in Hok. apply andb_true_iff in Hok as [Hfc Hrest].
  simpl. rewrite (group_frame_colours buf fanConfig Hlen Hfc). f_equal.
  rewrite IH by (by rewrite ?group_frame_length).
  by rewrite (group_frame_colours buf fanConfig Hlen Hfc).
Qed.

(** X19: in the LED sequence (for group configs whose copied colours are
    RGB triples) bytes 9-17 of a per-group frame hold the three colours of
    the most recent group config, up to and including the frame's own, that
    is not in random mode, and zeros when there is none: a config in random
    mode repeats the colour bytes of the frame before it. *)
Theorem led_sequence_colour_bytes :
  forall self,
    forallb colours_ok (LedConfig.fanConfigs self) = true ->
    exists group,
      (forall w,
          LedConfig.apply self w
          = (Ok tt,
             after (ClearEnqueuedReports
                      :: flat_map exchange (priming self ++ group ++ [trigger]))
                   [] 6 w))
      /\ map (fun frame => slice frame 9 18) group
         = carried (replicate 9 0) (LedConfig.fanConfigs self).
Proof.
  intros self Hok.
  exists (group_frames (group_buffer self) (LedConfig.fanConfigs self)).
  split.
  - intros w. by apply LedConfig_apply_run.
  - by rewrite group_frames_colours.
Qed.

Lemma led_sequence_colour_bytes_witness :
  exists group,
    (forall w,
        LedConfig.apply alternating_then_random w
        = (Ok tt,
           after (ClearEnqueuedReports
                    :: flat_map exchange
                         (priming alternating_then_random ++ group ++ [trigger]))
                 [] 6 w))
    /\ map (fun frame => slice frame 9 18) group
       = [[255; 0; 0; 0; 255; 0; 0; 0; 255];
          [255; 0; 0; 0; 255; 0; 0; 0; 255]].
Proof.
  apply (led_sequence_colour_bytes alternating_then_random). reflexivity.
Defined.

Lemma carried_all_random previous configs :
  forallb (fun fanConfig =>
             _ColourMode.eqb (FanConfig.colourMode fanConfig)
                             _ColourMode.RANDOM) configs = true ->
  carried previous configs = replicate (List.length configs) previous.
Proof.
  induction configs as [|fanConfig rest IH]; intros Hall; [done|].
  simpl in Hall. apply andb_true_iff in Hall as [Hfc Hrest].
  simpl. rewrite Hfc. f_equal. by apply IH.
Qed.

(** X20: when every group config of an LED configuration is in random
    mode, whatever colours they hold, every per-group frame of the sequence
    carries zero in all nine colour bytes 9-17. *)
Theorem all_random_sequence_has_zero_colours :
  forall self,
    forallb (fun fanConfig =>
               _ColourMode.eqb (FanConfig.colourMode fanConfig)
                               _ColourMode.RANDOM)
            (LedConfig.fanConfigs self) = true ->
    exists group,
      (forall w,
          LedConfig.apply self w
          = (Ok tt,
             after (ClearEnqueuedReports
                      :: flat_map exchange (priming self ++ group ++ [trigger]))
                   [] 6 w))
      /\ List.length group = List.length (LedConfig.fanConfigs self)
      /\ Forall (fun frame => slice frame 9 18 = replicate 9 0) group.
Proof.
  intros self Hall.
  assert (Hok : forallb colours_ok (LedConfig.fanConfigs self) = true).
  { apply forallb_forall. intros fanConfig Hin.
    rewrite forallb_forall in Hall. unfold colours_ok.
    by rewrite (Hall fanConfig Hin). }
  exists (group_frames (group_buffer self) (LedConfig.fanConfigs self)).
  split; [|split].
  - intros w. by apply LedConfig_apply_run.
  - apply group_frames_length.
  - pose proof (group_frames_colours (LedConfig.fanConfigs self)
                  (group_buffer self) eq_refl Hok) as Hcol.
    rewrite carried_all_random in Hcol by done.
    apply Forall_forall. intros frame Hin.
    assert (Hmem : slice frame 9 18
                   ∈ map (fun frame => slice frame 9 18)
                         (group_frames (group_buffer self)
                                       (LedConfig.fanConfigs self)))
      by (apply list_elem_of_In;
          apply (in_map (fun frame => slice frame 9 18));
          by apply list_elem_of_In).
    rewrite Hcol in Hmem. by apply elem_of_replicate in Hmem as [-> _].
Qed.

Lemma all_random_sequence_has_zero_colours_witness :
  exists group,
    (forall w,
        LedConfig.apply
          (LedConfig.Build _Channel.CHANNEL_2 _LedType.STRIP _Brightness.LOW
             [FanConfig.Build _FanID.FAN_1 _Effect.RAINBOW _Speed.SLOW
                _Direction.BACKWARD _ColourMode.RANDOM [255; 0; 0] [] [7]])
          w
        = (Ok tt,
           after (ClearEnqueuedReports
                    :: flat_map exchange
                         ([padded [0x37]; padded [0x34];
                           padded [0x39; 0; 0x21]; padded [0x38; 0; 1]]
                            ++ group ++ [trigger]))
                 [] 6 w))
    /\ List.length group = 1%nat
    /\ Forall (fun frame => slice frame 9 18 = replicate 9 0) group.
Proof.
  apply (all_random_sequence_has_zero_colours
           (LedConfig.Build _Channel.CHANNEL_2 _LedType.STRIP _Brightness.LOW
              [FanConfig.Build _FanID.FAN_1 _Effect.RAINBOW _Speed.SLOW
                 _Direction.BACKWARD _ColourMode.RANDOM [255; 0; 0] [] [7]])).
  reflexivity.
Defined.

(** ** A group config the loop cannot encode *)

Lemma apply_fanConfigs_cons buf fanConfig rest cs msgs n w :
  List.length buf = 64%nat -> colours_ok fanConfig = true ->
  LedConfig.apply_fanConfigs buf (fanConfig :: rest) (after cs msgs n w)
  = LedConfig.apply_fanConfigs (group_frame buf fanConfig) rest
      (after (cs ++ exchange (group_frame buf fanConfig)) msgs n w).
Proof.
  intros Hlen Hfc.
  unfold LedConfig.apply_fanConfigs at 1; fold LedConfig.apply_fanConfigs.
  unfold group_frame, colours_ok in *.
  pose proof (FanID_byte (FanConfig.fan fanConfig)).
  pose proof (Effect_byte (FanConfig.effect fanConfig)).
  pose proof (Speed_byte (FanConfig.speed fanConfig)).
  pose proof (Direction_byte (FanConfig.direction fanConfig)).
  pose proof (ColourMode_byte (FanConfig.colourMode fanConfig)).
  destruct (_ColourMode.eqb _ _); simpl negb.
  - steps. unfold exchange. by rewrite <- app_assoc.
  - simpl in Hfc. apply andb_true_iff in Hfc as [Hfc Hc3].
    apply andb_true_iff in Hfc as [Hc1 Hc2].
    apply rgb_inv in Hc1 as (r1 & g1 & b1 & t1 & -> & ? & ? & ?).
    apply rgb_inv in Hc2 as (r2 & g2 & b2 & t2 & -> & ? & ? & ?).
    apply rgb_inv in Hc3 as (r3 & g3 & b3 & t3 & -> & ? & ? & ?).
    steps. unfold exchange. by rewrite <- app_assoc.
Qed.

Lemma apply_fanConfigs_app good :
  forall buf rest cs msgs n w,
    List.length buf = 64%nat -> forallb colours_ok good = true ->
    exists buf',
      List.length buf' = 64%nat
      /\ LedConfig.apply_fanConfigs buf (good ++ rest) (after cs msgs n w)
         = LedConfig.apply_fanConfigs buf' rest
             (after (cs ++ flat_map exchange (group_frames buf good)) msgs n w).
Proof.
  induction good as [|fanConfig good IH]; intros buf rest cs msgs n w Hlen Hok.
  - exists buf. split; [done|]. simpl. by rewrite app_nil_r.
  - simpl in Hok. apply andb_true_iff in Hok as [Hfc Hgood].
    destruct (IH (group_frame buf fanConfig) rest
                 (cs ++ exchange (group_frame buf fanConfig)) msgs n w)
      as (buf' & Hlen' & Hrun); [by rewrite group_frame_length|done|].
    exists buf'. split; [done|].
    rewrite <- app_comm_cons, apply_fanConfigs_cons by done.
    rewrite Hrun. simpl flat_map. by rewrite <- app_assoc.
Qed.

Lemma getitem_none {A : Type} (l : list A) i :
  l !! i = None -> getitem l i = raise (IndexError "index out of range").
Proof. intros H. unfold getitem. by rewrite H. Qed.

Lemma setitem_not_byte buf i v :
  ~ 0 <= v < 256 ->
  setitem buf i v = raise (ValueError "byte must be in range(0, 256)").
Proof. intros H. unfold setitem. by rewrite bool_decide_eq_false_2. Qed.

(** The next read of a colour component finds it or raises; the next write
    of one into the buffer takes it or raises. *)
Ltac stopped :=
  steps; eexists; split;
  [ reflexivity
  | first [ left; eexists; reflexivity | right; eexists; reflexivity ] ].

Ltac component_or_raise :=
  first
    [ erewrite getitem_none by reflexivity; stopped
    | match goal with
      | |- context [setitem ?b ?i ?v] =>
          let Hin := fresh "Hin" in
          let Hout := fresh "Hout" in
          destruct (decide (0 <= v < 256)) as [Hin|Hout];
          [ rewrite (setitem_ok b i v Hin) by buf_length; steps
          | rewrite (setitem_not_byte b i v Hout); stopped ]
      end ].

Lemma apply_fanConfigs_stops buf fanConfig rest cs msgs n w :
  List.length buf = 64%nat -> colours_ok fanConfig = false ->
  exists e,
    LedConfig.apply_fanConfigs buf (fanConfig :: rest) (after cs msgs n w)
    = (Raise e, after cs msgs n w)
    /\ ((exists msg, e = IndexError msg) \/ (exists msg, e = ValueError msg)).
Proof.
  intros Hlen Hbad.
  unfold LedConfig.apply_fanConfigs at 1; fold LedConfig.apply_fanConfigs.
  unfold colours_ok in Hbad.
  pose proof (FanID_byte (FanConfig.fan fanConfig)).
  pose proof (Effect_byte (FanConfig.effect fanConfig)).
  pose proof (Speed_byte (FanConfig.speed fanConfig)).
  pose proof (Direction_byte (FanConfig.direction fanConfig)).
  pose proof (ColourMode_byte (FanConfig.colourMode fanConfig)).
  destruct (_ColourMode.eqb _ _); [discriminate|]. simpl in Hbad. simpl negb.
  steps.
  destruct (FanConfig.colour1 fanConfig) as [|r1 [|g1 [|b1 t1]]];
    steps; repeat component_or_raise.
  destruct (FanConfig.colour2 fanConfig) as [|r2 [|g2 [|b2 t2]]];
    steps; repeat component_or_raise.
  destruct (FanConfig.colour3 fanConfig) as [|r3 [|g3 [|b3 t3]]];
    steps; repeat component_or_raise.
  exfalso. simpl in Hbad.
  rewrite !bool_decide_eq_true_2 in Hbad by done. discriminate.
Qed.

(** X21: [LedConfig.apply] checks nothing before it starts: when the first
    group configs are encodable and the next one, not in random mode, has a
    colour with fewer than three components or with a component that is not
    a byte, the call raises IndexError or ValueError after the clear, the
    four priming frames and one frame per encodable group config have gone
    out, each with its read; the failing group's frame and the trigger
    frame are not written. *)
Theorem led_sequence_stops_at_bad_colour :
  forall self good bad rest w,
    LedConfig.fanConfigs self = good ++ bad :: rest ->
    forallb colours_ok good = true ->
    colours_ok bad = false ->
    exists e group,
      LedConfig.apply self w
      = (Raise e,
         after (ClearEnqueuedReports
                  :: flat_map exchange (priming self ++ group))
               [] 6 w)
      /\ List.length group = List.length good
      /\ ((exists msg, e = IndexError msg) \/ (exists msg, e = ValueError msg)).
Proof.
  intros self good bad rest w Hcfg Hgood Hbad.
  replace (LedConfig.apply self w) with (LedConfig.apply self (after [] [] 0 w))
    by (by rewrite after_nothing).
  unfold LedConfig.apply. rewrite Hcfg.
  pose proof (Channel_byte (LedConfig.channel self)).
  pose proof (LedType_byte (LedConfig.ledType self)).
  pose proof (Brightness_byte (LedConfig.brightness self)).
  steps.
  match goal with
  | |- context [LedConfig.apply_fanConfigs ?b _ (after ?cs ?ms ?n _)] =>
      change b with (group_buffer self);
      destruct (apply_fanConfigs_app good (group_buffer self) (bad :: rest)
                  cs ms n w eq_refl Hgood) as (buf' & Hlen' & Hrun);
      rewrite Hrun; clear Hrun
  end.
  match goal with
  | |- context [LedConfig.apply_fanConfigs _ _ (after ?cs ?ms ?n _)] =>
      destruct (apply_fanConfigs_stops buf' bad rest cs ms n w Hlen' Hbad)
        as (e & Hrun & He);
      rewrite Hrun; clear Hrun
  end.
  cbv beta iota.
  exists e, (group_frames (group_buffer self) good).
  split; [|split].
  - do 2 f_equal;
      try (rewrite flat_map_app; unfold priming, exchange;
           simpl flat_map; rewrite <- !app_assoc; reflexivity).
  - apply group_frames_length.
  - exact He.
Qed.

Lemma led_sequence_stops_at_bad_colour_witness :
  exists e group,
    LedConfig.apply
      (LedConfig.Build _Channel.CHANNEL_1 _LedType.HD_FAN _Brightness.MAX
         [FanConfig.Build _FanID.FAN_1 _Effect.STATIC _Speed.HIGH
            _Direction.FORWARD _ColourMode.ALTERNATING
            [255; 0; 0] [0; 255; 0] [0; 0; 255];
          FanConfig.Build _FanID.FAN_2 _Effect.STATIC _Speed.HIGH
            _Direction.FORWARD _ColourMode.ALTERNATING
            [255; 0; 0] [0; 256; 0] [0; 0; 255]])
      idle
    = (Raise e,
       after (ClearEnqueuedReports
                :: flat_map exchange
                     ([padded [0x37]; padded [0x34]; padded [0x39; 0; 0x64];
                       padded [0x38; 0; 1]] ++ group))
             [] 6 idle)
    /\ List.length group = 1%nat
    /\ ((exists msg, e = IndexError msg) \/ (exists msg, e = ValueError msg)).
Proof.
  apply (led_sequence_stops_at_bad_colour
           (LedConfig.Build _Channel.CHANNEL_1 _LedType.HD_FAN _Brightness.MAX
              [FanConfig.Build _FanID.FAN_1 _Effect.STATIC _Speed.HIGH
                 _Direction.FORWARD _ColourMode.ALTERNATING
                 [255; 0; 0] [0; 255; 0] [0; 0; 255];
               FanConfig.Build _FanID.FAN_2 _Effect.STATIC _Speed.HIGH
                 _Direction.FORWARD _ColourMode.ALTERNATING
                 [255; 0; 0] [0; 256; 0] [0; 0; 255]])
           [FanConfig.Build _FanID.FAN_1 _Effect.STATIC _Speed.HIGH
              _Direction.FORWARD _ColourMode.ALTERNATING
              [255; 0; 0] [0; 255; 0] [0; 0; 255]]
           (FanConfig.Build _FanID.FAN_2 _Effect.STATIC _Speed.HIGH
              _Direction.FORWARD _ColourMode.ALTERNATING
              [255; 0; 0] [0; 256; 0] [0; 0; 255])
           [] idle); reflexivity.
Defined.

(** ** [set_color] *)

(** X22: [set_color] looks the mode up first and the channel second, by
    member name and case-sensitively; a name that is no member raises
    KeyError with that name, before any buffer is created or any call is
    made on the transport, and before the colours are counted. *)
Theorem set_color_unknown_name :
  (forall channel mode colors w,
      _Effect.of_name mode = None ->
      set_color channel mode colors w = (Raise (KeyError mode), w))
  /\ (forall channel mode colors w,
        is_Some (_Effect.of_name mode) -> _Channel.of_name channel = None ->
        set_color channel mode colors w = (Raise (KeyError channel), w))
  /\ _Effect.of_name "static" = None
  /\ _Effect.of_name "STATIC" = Some _Effect.STATIC
  /\ _Channel.of_name "CHANNEL_3" = None.
Proof.
  repeat apply conj; try reflexivity.
  - intros channel mode colors w Hmode. unfold set_color. by rewrite Hmode.
  - intros channel mode colors w [e He] Hch. unfold set_color.
    by rewrite He, Hch.
Qed.

Lemma set_color_unknown_name_witness :
  set_color "CHANNEL_1" "static" [] idle = (Raise (KeyError "static"), idle).
Proof.
  apply (proj1 set_color_unknown_name "CHANNEL_1" "static" [] idle).
  reflexivity.
Defined.

(** X23: for a known mode and channel and one to three RGB colours,
    [set_color] fills the colours up to three with black and runs the LED
    sequence with full brightness: after the clear and the four priming
    frames come six per-group frames, for the LED offsets 0x0C * i of the
    slots i = 0..5 in order, each 0x35, channel, offset, 0x0C (HD fan),
    effect, 0 (high speed), 1 (forward), 0 (alternating), 0xff and the nine
    colour bytes, then the trigger frame. *)
Theorem set_color_frames :
  forall channel mode colors w effect channel_,
    _Effect.of_name mode = Some effect ->
    _Channel.of_name channel = Some channel_ ->
    (1 <= List.length colors <= 3)%nat ->
    forallb rgb colors = true ->
    let colours := colors ++ replicate (3 - List.length colors) [0; 0; 0] in
    set_color channel mode colors w
    = (Ok tt,
       after (ClearEnqueuedReports
                :: flat_map exchange
                     ([padded [0x37]; padded [0x34]; padded [0x39; 0; 0x64];
                       padded [0x38; 0; 1]]
                        ++ map (fun i =>
                                  padded ([0x35; _Channel.value channel_;
                                           0x0C * i; 0x0C;
                                           _Effect.value effect; 0; 1; 0; 0xff]
                                            ++ concat (map (take 3) colours)))
                               [0; 1; 2; 3; 4; 5]
                        ++ [padded [0x33; 0; 0xff]]))
             [] 6 w).
Proof.
  intros channel mode colors w effect channel_ He Hc Hlen Hrgb colours.
  unfold set_color. rewrite He, Hc. unfold member.
  destruct colors as [|c0 [|c1 [|c2 [|c3 rest]]]]; simpl in Hlen; try lia;
    simpl in Hrgb; rewrite ?andb_true_iff in Hrgb;
    repeat match goal with H : _ /\ _ |- _ => destruct H end;
    repeat match goal with
           | H : rgb _ = true |- _ =>
               apply rgb_inv in H as (? & ? & ? & ? & -> & ? & ? & ?)
           end;
    steps; simpl; steps;
    (rewrite LedConfig_apply_run
       by (unfold colours_ok, rgb; simpl;
           by rewrite ?bool_decide_eq_true_2 by done));
    reflexivity.
Qed.

Lemma set_color_frames_witness :
  set_color "CHANNEL_2" "BLINK" [[1; 2; 3]; [4; 5; 6]] idle
  = (Ok tt,
     after (ClearEnqueuedReports
              :: flat_map exchange
                   ([padded [0x37]; padded [0x34]; padded [0x39; 0; 0x64];
                     padded [0x38; 0; 1]]
                      ++ map (fun i =>
                                padded [0x35; 1; 0x0C * i; 0x0C; 8; 0; 1; 0;
                                        0xff; 1; 2; 3; 4; 5; 6; 0; 0; 0])
                             [0; 1; 2; 3; 4; 5]
                      ++ [padded [0x33; 0; 0xff]]))
           [] 6 idle).
Proof.
  apply (set_color_frames "CHANNEL_2" "BLINK" [[1; 2; 3]; [4; 5; 6]] idle
           _Effect.BLINK _Channel.CHANNEL_2);
    first [reflexivity | simpl; lia].
Defined.

(** ** The command catalogue *)

(** X24: the command codes are pairwise distinct, as the enumeration's
    [@unique] requires, and each is one byte. *)
Theorem command_codes_unique :
  (forall a b, _Command.value a = _Command.value b -> a = b)
  /\ (forall a, 0 <= _Command.value a < 256).
Proof.
  split.
  - intros a b. destruct a; destruct b; simpl; intros H;
      first [reflexivity | discriminate H].
  - intros a. destruct a; simpl; lia.
Qed.

Lemma command_codes_unique_witness :
  _Command.SET_LED_MODE = _Command.SET_LED_MODE.
Proof.
  apply (proj1 command_codes_unique _Command.SET_LED_MODE
           _Command.SET_LED_MODE).
  reflexivity.
Defined.

(** ** Framing of everything the driver sends *)

Lemma keeps_ret {A : Type} (a : A) (Q : A -> Prop) : Q a -> keeps (mret a) Q.
Proof. intros HQ w Hw. split; [done|]. by intros a' [= <-]. Qed.

Lemma keeps_raise {A : Type} e (Q : A -> Prop) : keeps (raise e) Q.
Proof. intros w Hw. split; [done|]. intros a H. discriminate H. Qed.

Lemma keeps_bind {A B : Type} (m : M A) (f : A -> M B) P Q :
  keeps m P -> (forall a, P a -> keeps (f a) Q) -> keeps (m ≫= f) Q.
Proof.
  intros Hm Hf w Hw. rewrite run_bind. destruct (Hm w Hw) as [Hw1 HP].
  destruct (m w) as [[a|e] w1]; simpl in *.
  - apply Hf; [by apply HP|done].
  - split; [done|]. intros b H. discriminate H.
Qed.

Lemma keeps_any {A : Type} (m : M A) P : keeps m P -> keeps m (fun _ => True).
Proof. intros Hm w Hw. destruct (Hm w Hw) as [Hw1 _]. by split. Qed.

Lemma keeps_quiet {A : Type} (m : M A) : quiet m -> keeps m (fun _ => True).
Proof. intros Hm w Hw. split; [|done]. unfold framed. by rewrite Hm. Qed.

Lemma keeps_bytearray :
  keeps (bytearray _WRITE_LENGTH) buffer.
Proof.
  intros w Hw. split; [done|]. intros a [= <-]. split.
  - reflexivity.
  - apply (Forall_replicate (fun b => 0 <= b < 256) 64 0). lia.
Qed.

Lemma keeps_setitem buf i v : buffer buf -> keeps (setitem buf i v) buffer.
Proof.
  intros [Hlen Hbytes]. unfold setitem.
  repeat case_bool_decide; try apply keeps_raise.
  apply keeps_ret. split.
  - by rewrite length_insert.
  - by apply Forall_insert.
Qed.

Lemma keeps_write buf : buffer buf -> keeps (write buf) (fun _ => True).
Proof. intros Hbuf w Hw. split; [|done]. by constructor. Qed.

Lemma keeps_read : keeps (read _READ_LENGTH) (fun _ => True).
Proof. intros w Hw. split; [|done]. by constructor. Qed.

Lemma keeps_clear : keeps clear_enqueued_reports (fun _ => True).
Proof. intros w Hw. split; [|done]. by constructor. Qed.

Lemma quiet_member {A : Type} (found : option A) name :
  quiet (member found name).
Proof. destruct found; by intros w. Qed.

Create HintDb keeps.
#[local] Hint Resolve keeps_write keeps_read keeps_clear : keeps.
#[local] Hint Resolve quiet_member : quiet.

(** One statement of a run: a buffer operation keeps its buffer, a call on
    the transport is framed, anything else makes no call. *)
Ltac keeps_step :=
  lazymatch goal with
  | |- keeps (raise _) _ => apply keeps_raise
  | |- keeps (mret _) _ => apply keeps_ret; done
  | |- keeps (_ ≫= _) _ =>
      eapply keeps_bind;
      [ lazymatch goal with
        | |- keeps (bytearray _) _ => apply keeps_bytearray
        | |- keeps (setitem _ _ _) _ => apply keeps_setitem; assumption
        | |- _ =>
            first [ solve [auto with keeps]
                  | apply keeps_quiet; solve [auto with quiet] ]
        end
      | intros ? ? ]
  end.

Ltac keeps_run := repeat (repeat case_bool_decide; keeps_step).

Lemma keeps_set_speed_graph_fill range :
  forall buf temps speeds,
    buffer buf -> keeps (set_speed_graph_fill buf temps speeds range) buffer.
Proof.
  induction range as [|i range IH]; intros buf temps speeds Hbuf; simpl.
  - by apply keeps_ret.
  - keeps_run. by apply IH.
Qed.

Lemma keeps_apply_fanConfigs configs :
  forall buf, buffer buf -> keeps (LedConfig.apply_fanConfigs buf configs) buffer.
Proof.
  induction configs as [|fanConfig rest IH]; intros buf Hbuf; simpl.
  - by apply keeps_ret.
  - keeps_run.
    eapply keeps_bind with (P := buffer).
    { destruct (negb _); [|by apply keeps_ret]. keeps_run.
      by apply keeps_setitem. }
    intros buf' Hbuf'. keeps_run. by apply IH.
Qed.

Ltac keeps_end :=
  first [ keeps_step | apply keeps_quiet; solve [auto with quiet] ].

Ltac keeps_all := repeat (repeat case_bool_decide; keeps_end).

Lemma keeps_LedConfig_apply self : keeps (LedConfig.apply self) (fun _ => True).
Proof.
  unfold LedConfig.apply. keeps_all.
  eapply keeps_bind; [by apply keeps_apply_fanConfigs|intros ? ?].
  keeps_all.
Qed.

Lemma keeps_set_color channel mode colors :
  keeps (set_color channel mode colors) (fun _ => True).
Proof. unfold set_color. keeps_all. cbv zeta. apply keeps_LedConfig_apply. Qed.

Lemma keeps_notify_led_temperature channel temperature :
  keeps (notify_led_temperature channel temperature) (fun _ => True).
Proof. unfold notify_led_temperature. keeps_all. Qed.

Lemma keeps_get_port_led_count : keeps get_port_led_count (fun _ => True).
Proof. unfold get_port_led_count. keeps_all. Qed.

Lemma keeps_set_speed_percent channel duty :
  keeps (set_speed_percent channel duty) (fun _ => True).
Proof. unfold set_speed_percent. keeps_all. Qed.

Lemma keeps_set_speed_rpm fan speed :
  keeps (set_speed_rpm fan speed) (fun _ => True).
Proof.
  unfold set_speed_rpm. repeat (case_bool_decide; [apply keeps_raise|]).
  eapply keeps_bind with (P := fun _ => True).
  { apply keeps_quiet. case_bool_decide; auto with quiet. }
  intros _ _. keeps_all.
Qed.

Lemma keeps_set_speed_graph thermometer fan temps speeds :
  keeps (set_speed_graph thermometer fan temps speeds) (fun _ => True).
Proof.
  unfold set_speed_graph. keeps_all.
  eapply keeps_bind; [by apply keeps_set_speed_graph_fill|intros ? ?].
  keeps_all.
Qed.

Lemma keeps_for_each {A : Type} (l : list A) (body : A -> M unit) :
  (forall a, keeps (body a) (fun _ => True)) ->
  keeps (for_each l body) (fun _ => True).
Proof.
  intros Hbody. induction l as [|a l IH]; simpl.
  - by apply keeps_ret.
  - eapply keeps_bind; [apply Hbody|intros _ _; apply IH].
Qed.

Lemma keeps_send_temperature_info sensor_index temperature :
  keeps (send_temperature_info sensor_index temperature) (fun _ => True).
Proof. unfold send_temperature_info. keeps_all. Qed.

Lemma keeps_set_fan_mode fan mode :
  keeps (set_fan_mode fan mode) (fun _ => True).
Proof. unfold set_fan_mode. keeps_all. Qed.

Lemma keeps_get_firmware_version : keeps get_firmware_version (fun _ => True).
Proof. unfold get_firmware_version. keeps_all. Qed.

Lemma keeps_get_software_id : keeps get_software_id (fun _ => True).
Proof. unfold get_software_id. keeps_all. Qed.

Lemma keeps_get_bootloader_version :
  keeps get_bootloader_version (fun _ => True).
Proof. unfold get_bootloader_version. keeps_all. Qed.

Lemma keeps_get_fan_speed_rpm fanIndex :
  keeps (get_fan_speed_rpm fanIndex) (fun _ => True).
Proof. unfold get_fan_speed_rpm. keeps_all. Qed.

Lemma keeps_get_fan_speed_pwm fanIndex :
  keeps (get_fan_speed_pwm fanIndex) (fun _ => True).
Proof. unfold get_fan_speed_pwm. keeps_all. Qed.

Lemma keeps_get_temperature index :
  keeps (get_temperature index) (fun _ => True).
Proof. unfold get_temperature. keeps_all. Qed.

Lemma keeps_get_voltage sensor_index :
  keeps (get_voltage sensor_index) (fun _ => True).
Proof. unfold get_voltage. keeps_all. Qed.

Lemma keeps_get_led_status channel :
  keeps (get_led_status channel) (fun _ => True).
Proof. unfold get_led_status. keeps_all. Qed.

#[local] Hint Resolve keeps_get_fan_speed_rpm keeps_get_temperature
  keeps_get_voltage keeps_get_led_status : keeps.

Lemma keeps_get_fan_status_loop range :
  forall report properties,
    keeps (get_fan_status_loop report range properties) (fun _ => True).
Proof.
  induction range as [|i range IH]; intros report properties; simpl.
  - by apply keeps_ret.
  - eapply keeps_bind; [apply keeps_quiet; auto with quiet|intros r _].
    eapply keeps_bind with (P := fun _ => True); [|intros ? _; apply IH].
    case_bool_decide; keeps_all.
Qed.

Lemma keeps_get_thermometer_status_loop range :
  forall report config,
    keeps (get_thermometer_status_loop report range config) (fun _ => True).
Proof.
  induction range as [|i range IH]; intros report config; simpl.
  - by apply keeps_ret.
  - eapply keeps_bind; [apply keeps_quiet; auto with quiet|intros r _].
    eapply keeps_bind with (P := fun _ => True); [|intros ? _; apply IH].
    case_bool_decide; keeps_all.
Qed.

Lemma keeps_get_fan_status : keeps get_fan_status (fun _ => True).
Proof.
  unfold get_fan_status. keeps_all. apply keeps_get_fan_status_loop.
Qed.

Lemma keeps_get_thermometer_status :
  keeps get_thermometer_status (fun _ => True).
Proof.
  unfold get_thermometer_status. keeps_all.
  apply keeps_get_thermometer_status_loop.
Qed.

Lemma keeps_get_power_status : keeps get_power_status (fun _ => True).
Proof. unfold get_power_status. keeps_all. Qed.

#[local] Hint Resolve keeps_get_fan_status keeps_get_thermometer_status
  keeps_get_power_status : keeps.

Lemma keeps_get_status : keeps get_status (fun _ => True).
Proof. unfold get_status. keeps_all. Qed.

(** X25: every operation of the driver keeps the framing of the protocol,
    for all arguments, valid or not, whatever the device answers and whether
    the operation returns or raises: each frame it writes is 64 bytes, each
    read it makes asks for 16. *)
Theorem every_frame_is_64_bytes :
  forall w,
    framed w ->
    (forall self, framed (snd (LedConfig.apply self w)))
    /\ (forall channel mode colors,
          framed (snd (set_color channel mode colors w)))
    /\ (forall channel temperature,
          framed (snd (notify_led_temperature channel temperature w)))
    /\ framed (snd (get_port_led_count w))
    /\ (forall channel profile,
          framed (snd (set_speed_profile channel profile w)))
    /\ (forall channel duty, framed (snd (set_speed_percent channel duty w)))
    /\ (forall channel duty, framed (snd (set_fixed_speed channel duty w)))
    /\ (forall fan speed, framed (snd (set_speed_rpm fan speed w)))
    /\ framed (snd (set_speed_graph_example w))
    /\ (forall thermometer fan temps speeds,
          framed (snd (set_speed_graph thermometer fan temps speeds w)))
    /\ (forall sensor_index temperature,
          framed (snd (send_temperature_info sensor_index temperature w)))
    /\ (forall fan mode, framed (snd (set_fan_mode fan mode w)))
    /\ framed (snd (get_firmware_version w))
    /\ framed (snd (get_software_id w))
    /\ framed (snd (get_bootloader_version w))
    /\ framed (snd (get_fan_status w))
    /\ (forall fanIndex, framed (snd (get_fan_speed_rpm fanIndex w)))
    /\ (forall fanIndex, framed (snd (get_fan_speed_pwm fanIndex w)))
    /\ framed (snd (get_thermometer_status w))
    /\ (forall index, framed (snd (get_temperature index w)))
    /\ (forall channel, framed (snd (get_led_status channel w)))
    /\ framed (snd (get_power_status w))
    /\ (forall sensor_index, framed (snd (get_voltage sensor_index w)))
    /\ framed (snd (get_status w)).
Proof.
  intros w Hw. repeat apply conj; intros.
  - by apply keeps_LedConfig_apply.
  - by apply keeps_set_color.
  - by apply keeps_notify_led_temperature.
  - by apply keeps_get_port_led_count.
  - by apply keeps_set_speed_graph.
  - by apply keeps_set_speed_percent.
  - by apply keeps_set_speed_percent.
  - by apply keeps_set_speed_rpm.
  - apply (keeps_for_each _ _ (fun fan => keeps_set_speed_graph _ _ _ _)).
    done.
  - by apply keeps_set_speed_graph.
  - by apply keeps_send_temperature_info.
  - by apply keeps_set_fan_mode.
  - by apply keeps_get_firmware_version.
  - by apply keeps_get_software_id.
  - by apply keeps_get_bootloader_version.
  - by apply keeps_get_fan_status.
  - by apply keeps_get_fan_speed_rpm.
  - by apply keeps_get_fan_speed_pwm.
  - by apply keeps_get_thermometer_status.
  - by apply keeps_get_temperature.
  - by apply keeps_get_led_status.
  - by apply keeps_get_power_status.
  - by apply keeps_get_voltage.
  - by apply keeps_get_status.
Qed.

Lemma every_frame_is_64_bytes_witness :
  framed (snd (set_color "CHANNEL_1" "STATIC" [[255; 0; 0]] idle)).
Proof.
  apply (proj1 (proj2 (every_frame_is_64_bytes idle ltac:(constructor)))).
Defined.

(** ** Indices the queries do not check *)

(** X26: [get_fan_speed_rpm], [get_fan_speed_pwm] and [get_led_status] have
    no range check of their own: an index that is not a byte is refused by
    the assignment into the buffer, with ValueError, after the buffer was
    created and before any call on the transport. *)
Theorem index_must_be_a_byte :
  forall index w,
    index < 0 \/ 255 < index ->
    get_fan_speed_rpm index w
    = (Raise (ValueError "byte must be in range(0, 256)"), after [] [] 1 w)
    /\ get_fan_speed_pwm index w
       = (Raise (ValueError "byte must be in range(0, 256)"), after [] [] 1 w)
    /\ get_led_status index w
       = (Raise (ValueError "byte must be in range(0, 256)"), after [] [] 1 w).
Proof.
  intros index w Hbad.
  assert (Hnot : ~ 0 <= index < 256) by lia.
  repeat apply conj; apply from_start;
    [ unfold get_fan_speed_rpm | unfold get_fan_speed_pwm
      | unfold get_led_status ];
    steps; rewrite (setitem_not_byte _ _ _ Hnot); steps; reflexivity.
Qed.

Lemma index_must_be_a_byte_witness :
  get_fan_speed_rpm 256 idle
  = (Raise (ValueError "byte must be in range(0, 256)"), after [] [] 1 idle)
  /\ get_fan_speed_pwm 256 idle
     = (Raise (ValueError "byte must be in range(0, 256)"), after [] [] 1 idle)
  /\ get_led_status 256 idle
     = (Raise (ValueError "byte must be in range(0, 256)"), after [] [] 1 idle).
Proof. apply (index_must_be_a_byte 256 idle). lia. Defined.

(** ** Refusals and the transport *)







